(** * Centian: the Context7 MCP proxy and the payload_transformer processor

    A shallow embedding of [context7_proxy.py] (the [POST /] handler
    [proxy_mcp_request]) and of
    [tests/integrationtests/processors/payload_transformer.py] (the
    function [process]), with the properties of the specification that
    concern them.

    Python text is modelled as [string], Python objects that travel
    through the handler as [value], the [proxy_headers] dict as a
    [gmap string string], header multimaps as association lists in wire
    order, HTTP status codes as [Z].  Exceptions are explicit: a
    computation that may raise returns [pyexn + A].

    What the handler calls and Python or its libraries define is an
    argument of the handler: [str.strip], [eval], [json.loads], the
    upstream client.  [eval] runs in the handler's frame, so it is given
    the frame and gives it back as it leaves it.  The theorems hold for
    every choice of these arguments; the runs on concrete traffic use
    reference versions of them, on ASCII texts. *)

From Stdlib Require Import ZArith Ascii String List Bool Lia.
From stdpp Require Import base option strings gmap list.

Open Scope Z_scope.
Set Warnings "-register-all".

(** ** Python string operations used by the sources *)

Module Str.

(** [c.lower()] on one character (ASCII letters only). *)
Definition lower_ascii (c : ascii) : ascii :=
  let n := nat_of_ascii c in
  if ((65 <=? n)%nat && (n <=? 90)%nat)%bool then ascii_of_nat (n + 32) else c.

(** [s.lower()] *)
Fixpoint lower (s : string) : string :=
  match s with
  | EmptyString => EmptyString
  | String c s' => String (lower_ascii c) (lower s')
  end.

(** [s.startswith(p)] *)
Fixpoint startswith (p s : string) : bool :=
  match p, s with
  | EmptyString, _ => true
  | String _ _, EmptyString => false
  | String a p', String b s' => if Ascii.eqb a b then startswith p' s' else false
  end.

(** [p in s] for two strings *)
Fixpoint contains (p s : string) : bool :=
  if startswith p s then true
  else match s with
       | EmptyString => false
       | String _ s' => contains p s'
       end.

(** [s[n:]] *)
Fixpoint drop (n : nat) (s : string) : string :=
  match n, s with
  | O, _ => s
  | S _, EmptyString => EmptyString
  | S n', String _ s' => drop n' s'
  end.

(** A reference [strip] for the runs, right on a text whose first and last
    characters are ASCII: the white space of the ASCII range is TAB, LF,
    VT, FF, CR, FS, GS, RS, US and the space.  Python's [str.strip] also
    removes the white space outside that range (U+0085, U+00A0, U+2000 and
    the like), which is why the handler takes [strip] as an argument and
    no theorem about it rests on this definition. *)
Definition isspace_ascii (c : ascii) : bool :=
  let n := nat_of_ascii c in
  (((9 <=? n)%nat && (n <=? 13)%nat) || ((28 <=? n)%nat && (n <=? 32)%nat))%bool.

Fixpoint lstrip (s : string) : string :=
  match s with
  | String c s' => if isspace_ascii c then lstrip s' else s
  | EmptyString => EmptyString
  end.

Fixpoint rstrip (s : string) : string :=
  match s with
  | EmptyString => EmptyString
  | String c s' =>
      match rstrip s' with
      | EmptyString => if isspace_ascii c then EmptyString else String c EmptyString
      | r => String c r
      end
  end.

(** [s.strip()] on such a text *)
Definition strip_ascii (s : string) : string := rstrip (lstrip s).

(** [s.split(sep)] for a one-character separator: never the empty list. *)
Fixpoint split (sep : ascii) (s : string) : list string :=
  match s with
  | EmptyString => [EmptyString]
  | String c s' =>
      if Ascii.eqb c sep then EmptyString :: split sep s'
      else match split sep s' with
           | [] => [String c EmptyString]
           | w :: ws => String c w :: ws
           end
  end.

(** [sep.join(l)] *)
Fixpoint join (sep : string) (l : list string) : string :=
  match l with
  | [] => EmptyString
  | [x] => x
  | x :: l' => x +:+ sep +:+ join sep l'
  end.

Definition LF : ascii := ascii_of_nat 10.

End Str.

(** ** Python objects *)

(** The objects the handler and the processors handle: what [json.loads]
    produces, and, through [VOther], any other object (a float, or
    whatever [eval] may return) described by its type name, its truth
    value and whether [json.dumps] accepts it.  A dict keeps its insertion
    order; its keys are strings. *)
Inductive value : Type :=
| VNone
| VBool (b : bool)
| VInt (n : Z)
| VStr (s : string)
| VList (l : list value)
| VDict (d : list (string * value))
| VOther (tyname : string) (truth jsonable : bool).

(** [bool(v)], as tested by [if v:] *)
Definition truthy (v : value) : bool :=
  match v with
  | VNone => false
  | VBool b => b
  | VInt n => negb (n =? 0)
  | VStr s => negb (String.eqb s "")
  | VList l => match l with [] => false | _ => true end
  | VDict d => match d with [] => false | _ => true end
  | VOther _ t _ => t
  end.

(** Whether [json.dumps(v, allow_nan=False)] succeeds. *)
Fixpoint serialisable (v : value) : bool :=
  match v with
  | VList l => forallb serialisable l
  | VDict d => forallb (fun kv => serialisable (snd kv)) d
  | VOther _ _ j => j
  | _ => true
  end.

(** [type(v).__name__] *)
Definition type_name (v : value) : string :=
  match v with
  | VNone => "NoneType"
  | VBool _ => "bool"
  | VInt _ => "int"
  | VStr _ => "str"
  | VList _ => "list"
  | VDict _ => "dict"
  | VOther t _ _ => t
  end.

(** [d[k] = v] on the items of a dict: the value of a present key is
    replaced where it stands, a new key goes to the end. *)
Fixpoint dict_set (d : list (string * value)) (k : string) (v : value)
  : list (string * value) :=
  match d with
  | [] => [(k, v)]
  | (k', v') :: d' =>
      if String.eqb k' k then (k, v) :: d' else (k', v') :: dict_set d' k v
  end.

(** [d.get(k)] on the items of a dict *)
Fixpoint dict_get (d : list (string * value)) (k : string) : option value :=
  match d with
  | [] => None
  | (k', v') :: d' => if String.eqb k' k then Some v' else dict_get d' k
  end.

(** Exceptions raised by the embedded code, with [str(e)]. *)
Inductive pyexn : Type :=
| HTTPError (msg : string)      (* httpx.HTTPError and its subclasses *)
| Exception (msg : string).     (* any other Exception *)

Definition str_of_exn (e : pyexn) : string :=
  match e with HTTPError m | Exception m => m end.

(** A small error monad for code that may raise. *)
Definition M (A : Type) : Type := pyexn + A.
Definition ret {A} (a : A) : M A := inr a.
Definition raise {A} (e : pyexn) : M A := inl e.
Definition bind {A B} (m : M A) (k : A -> M B) : M B :=
  match m with
  | inl e => inl e
  | inr a => k a
  end.
Notation "'do' x <-- m ;; k" := (bind m (fun x => k))
  (at level 10, x name, m at level 99, k at level 200).

(** ** Header multimaps of the two libraries *)

(** [starlette.datastructures.Headers]: the raw list of the ASGI scope, in
    which the server has lower-cased every header name; a lookup
    lower-cases the key it is given and returns the first match. *)
Module Starlette.

Definition Headers : Type := list (string * string).

(** The scope's header list for the headers a client sent. *)
Definition of_wire (wire : list (string * string)) : Headers :=
  map (fun kv => (Str.lower (fst kv), snd kv)) wire.

(** [headers.get(key)] *)
Fixpoint get (h : Headers) (key : string) : option string :=
  match h with
  | [] => None
  | (k, v) :: h' => if String.eqb k (Str.lower key) then Some v else get h' key
  end.

(** [key in headers] *)
Definition contains (h : Headers) (key : string) : bool :=
  existsb (fun kv => String.eqb (fst kv) (Str.lower key)) h.

(** [del headers[key]]: every entry of that name goes. *)
Definition delitem (h : Headers) (key : string) : Headers :=
  List.filter (fun kv => negb (String.eqb (fst kv) (Str.lower key))) h.

End Starlette.

(** [httpx.Headers]: names are compared lower-cased; the values of a
    repeated header are joined with a comma and a space. *)
Module Httpx.

Definition Headers : Type := list (string * string).

Definition items (h : Headers) (key : string) : list string :=
  map snd (List.filter (fun kv => String.eqb (Str.lower (fst kv)) (Str.lower key)) h).

(** [headers.get(key)] *)
Definition get (h : Headers) (key : string) : option string :=
  match items h key with
  | [] => None
  | its => Some (Str.join ", " its)
  end.

Record Response : Type := {
  status_code : Z;
  headers : Headers;
  text : string
}.

(** [response.is_success] *)
Definition is_success (r : Response) : bool :=
  (200 <=? status_code r) && (status_code r <=? 299).

End Httpx.

(** ** The inbound request, the upstream call and the envelope *)

Record Request : Type := {
  wire_headers : list (string * string);   (* as the client sent them *)
  body : string
}.

(** [request.headers] *)
Definition request_headers_of (request : Request) : Starlette.Headers :=
  Starlette.of_wire (wire_headers request).

(** The arguments of [http_client.post(request_url, json=..., headers=...)];
    what the client adds of its own on the wire is not part of it. *)
Record UpstreamCall : Type := {
  call_url : string;
  call_json : value;
  call_headers : gmap string string
}.

(** [fastapi.responses.JSONResponse] *)
Record JSONResponse : Type := {
  content : value;
  status : Z;
  resp_headers : gmap string string
}.

(** How a call of the handler ends: it returns a response, or raises
    [HTTPException(status_code, detail)]; [Unfinished] stands for a run
    whose loop over the event stream goes on beyond the number of
    iterations that the embedding follows (lines 105 to 117 iterate over a
    list that [eval] can extend). *)
Inductive outcome : Type :=
| Returned (r : JSONResponse)
| Raised (status_code : Z) (detail : string)
| Unfinished.

(** FastAPI's handler for [HTTPException]: what the caller receives, when
    the handler ends. *)
Definition as_seen_by_caller (o : outcome) : option JSONResponse :=
  match o with
  | Returned r => Some r
  | Raised sc detail =>
      Some {| content := VDict [("detail", VStr detail)];
              status := sc;
              resp_headers := ∅ |}
  | Unfinished => None
  end.

(** The handler's frame as [eval] on line 109 finds it, and as it can
    leave it: of the objects that the handler goes on to use, [eval] can
    change the list [lines] (the loop iterates over it) and the object
    [response] (lines 121 to 128 read its headers and its status).
    [frame_request] stands for what lines 59 to 77 computed from the
    request ([request_data], [request_url], [request_headers],
    [proxy_headers]), which [eval] can read; [frame_json] says whether
    line 113 has run, after which the name [json] is bound;
    [frame_globals] stands for whatever else [eval] can reach and change
    (the names of the module, the state of the interpreter), which the
    handler itself does not read.  The strings [response_text], [line] and
    [json_str] cannot change, and [eval] of an expression binds no name
    of the frame.  [eval] is taken to return or to raise (line 111 takes
    whatever it raises), and to leave [json.loads] and [JSONResponse] as
    they are. *)
Record Frame : Type := {
  frame_request : Request;
  frame_response : Httpx.Response;
  frame_lines : list string;
  frame_json : bool;
  frame_globals : value
}.

(** The frame after line 113 ([b] true), or before it. *)
Definition with_json (b : bool) (frame : Frame) : Frame :=
  {| frame_request := frame_request frame;
     frame_response := frame_response frame;
     frame_lines := frame_lines frame;
     frame_json := b;
     frame_globals := frame_globals frame |}.

(** The response of line 135, for the text of an event stream. *)
Definition parse_failure (response_text : string) : JSONResponse :=
  {| content := VDict [("error", VStr "Failed to parse streaming response");
                       ("raw", VStr response_text)];
     status := 500;
     resp_headers := ∅ |}.

Definition CONTEXT7_BASE_URL : string := "https://mcp.context7.com/mcp".
Definition USER_AGENT : string :=
  "Mozilla/5.0 (Macintosh; Intel Mac OS X 10_15_7) AppleWebKit/537.36 (KHTML, like Gecko) Chrome/139.0.0.0 Safari/537.36".

(** The dict literal of lines 68 to 73. *)
Definition fixed_headers : gmap string string :=
  <["User-Agent" := USER_AGENT]>
    (<["Accept" := "application/json, text/event-stream"]>
       (<["Content-Type" := "application/json"]> ∅)).

(** [if sess_id := ...:] holds for a header that is present and not empty. *)
Definition walrus (o : option string) : option string :=
  match o with
  | Some s => if String.eqb s "" then None else Some s
  | None => None
  end.

(** ** The handler [proxy_mcp_request] *)

Section Handler.

(** What the handler calls and this repository does not define. *)

(** [text.strip()] *)
Variable strip : string -> string.
(** [eval(text)] in the frame: the frame as [eval] leaves it, and the
    object, or nothing when [eval] raises. *)
Variable py_eval : Frame -> string -> Frame * option value.
(** [json.loads(text)]: the object, or [str(e)] of the decode error. *)
Variable json_loads : string -> string + value.
(** [http_client.post(...)]: the reply, or the exception it raises. *)
Variable post : UpstreamCall -> M Httpx.Response.
(** [str(e)] of the [HTTPStatusError] that [raise_for_status] raises. *)
Variable status_error : Httpx.Response -> string.
(** [str(e)] of the error [json.dumps] raises on an object it refuses. *)
Variable dumps_error : value -> string.
(** The number of iterations of the loop of lines 105 to 117 that the
    embedding follows. *)
Variable loop_bound : nat.
(** What [eval] can reach besides the handler's locals, as it is when the
    loop starts. *)
Variable module_globals : value.

(** [request.json()] and [response.json()] *)
Definition loads (s : string) : M value :=
  match json_loads s with
  | inl msg => raise (Exception msg)
  | inr v => ret v
  end.

(** [request_data.get('method', 'unknown')]: only a dict has [get]. *)
Definition get_method (request_data : value) : M unit :=
  match request_data with
  | VDict _ => ret tt
  | v => raise (Exception ("'" +:+ type_name v +:+ "' object has no attribute 'get'"))
  end.

(** Line 62. *)
Definition request_url (h : Starlette.Headers) : string :=
  default CONTEXT7_BASE_URL (Starlette.get h "centian-url").

(** Lines 63 to 66: the mutable copy, without the override header. *)
Definition request_headers (h : Starlette.Headers) : Starlette.Headers :=
  if Starlette.contains h "centian-url" then Starlette.delitem h "centian-url" else h.

(** Lines 68 to 77. *)
Definition proxy_headers (request_headers : Starlette.Headers) : gmap string string :=
  let proxy_headers : gmap string string := fixed_headers in
  let proxy_headers :=
    match walrus (Starlette.get request_headers "MCP-Session-Id") with
    | Some sess_id => <["mcp-session-id" := sess_id]> proxy_headers
    | None => proxy_headers
    end in
  match walrus (Starlette.get request_headers "mcp-session-id") with
  | Some sess_id => <["mcp-session-id" := sess_id]> proxy_headers
  | None => proxy_headers
  end.

(** Lines 58 to 87, up to the call: what is sent upstream. *)
Definition before_post (request : Request) : M UpstreamCall :=
  do request_data <-- loads (body request) ;;
  do _ <-- get_method request_data ;;
  let url := request_url (request_headers_of request) in
  let rh := request_headers (request_headers_of request) in
  ret {| call_url := url; call_json := request_data; call_headers := proxy_headers rh |}.

(** [response.raise_for_status()] *)
Definition raise_for_status (response : Httpx.Response) : M unit :=
  if Httpx.is_success response then ret tt
  else raise (HTTPError (status_error response)).

(** Line 101. *)
Definition lines (response_text : string) : list string :=
  Str.split Str.LF (strip response_text).

(** Lines 104 to 117: the loop, from the item of index [i] of [lines] on,
    for at most [steps] iterations.  It gives the frame at the end of the
    loop with [json_data], or nothing when [steps] iterations did not
    end it.  The items are read by index from the list as it is at that
    moment, as Python's list iterator does. *)
Fixpoint json_data (steps : nat) (frame : Frame) (i : nat)
  : option (Frame * option value) :=
  match steps with
  | O => None
  | S steps' =>
      match frame_lines frame !! i with
      | None => Some (frame, None)                       (* the list is exhausted *)
      | Some line =>
          if Str.startswith "data: " line then
            let json_str := Str.drop 6 line in
            match py_eval frame json_str with
            | (frame, Some v) => Some (frame, Some v)    (* break *)
            | (frame, None) =>
                let frame := with_json true frame in     (* import json *)
                match json_loads json_str with
                | inr v => Some (frame, Some v)          (* break *)
                | inl _ => json_data steps' frame (S i)  (* continue *)
                end
            end
          else json_data steps' frame (S i)
      end
  end.

(** The frame when the loop starts. *)
Definition first_frame (request : Request) (response : Httpx.Response) : Frame :=
  {| frame_request := request;
     frame_response := response;
     frame_lines := lines (Httpx.text response);
     frame_json := false;
     frame_globals := module_globals |}.

(** Lines 120 to 124. *)
Definition response_headers (h : Httpx.Headers) : gmap string string :=
  let response_headers : gmap string string := ∅ in
  let response_headers :=
    match walrus (Httpx.get h "mcp-session-id") with
    | Some sess_id => <["mcp-session-id" := sess_id]> response_headers
    | None => response_headers
    end in
  match walrus (Httpx.get h "Mcp-Session-Id") with
  | Some sess_id => <["mcp-session-id" := sess_id]> response_headers
  | None => response_headers
  end.

(** [JSONResponse(content=..., status_code=..., headers=...)]: the body is
    rendered with [json.dumps] when the response is built. *)
Definition new_JSONResponse (c : value) (sc : Z) (h : gmap string string)
  : M JSONResponse :=
  if serialisable c then ret {| content := c; status := sc; resp_headers := h |}
  else raise (Exception (dumps_error c)).

(** Lines 139 to 145. *)
Definition response_data (response : Httpx.Response) : value :=
  match Httpx.get (Httpx.headers response) "Content-Type" with
  | Some content_typ =>
      if String.eqb content_typ "application/json" then
        match json_loads (Httpx.text response) with
        | inr v => v
        | inl _ => VDict []      (* logged *)
        end
      else VDict []
  | None => VDict []
  end.

(** Lines 88 and 89: a reply with status 400 is decoded for the log. *)
Definition log_bad_request (response : Httpx.Response) : M unit :=
  if Httpx.status_code response =? 400
  then do _ <-- loads (Httpx.text response) ;; ret tt
  else ret tt.

(** Lines 100 to 135: the streaming reply as a response, when the loop
    ends.  After the loop [response] is the object as [eval] left it;
    [response_text] is the string of line 100. *)
Definition streaming_response (request : Request) (response : Httpx.Response)
  : option (M JSONResponse) :=
  let response_text := Httpx.text response in
  let fallback :=
    new_JSONResponse
      (VDict [("error", VStr "Failed to parse streaming response");
              ("raw", VStr response_text)]) 500 ∅ in
  match json_data loop_bound (first_frame request response) 0 with
  | None => None
  | Some (frame, json_data) =>
      let response := frame_response frame in
      Some match json_data with
           | Some v =>
               if truthy v then
                 new_JSONResponse v (Httpx.status_code response)
                   (response_headers (Httpx.headers response))
               else fallback
           | None => fallback
           end
  end.

(** Line 93. *)
Definition content_type (response : Httpx.Response) : string :=
  default "" (Httpx.get (Httpx.headers response) "content-type").

(** Lines 93 to 151: the two formats of a reply. *)
Definition normalize (request : Request) (response : Httpx.Response)
  : option (M JSONResponse) :=
  if Str.contains "text/event-stream" (content_type response)
  then streaming_response request response
  else Some (new_JSONResponse (response_data response) (Httpx.status_code response) ∅).

(** Lines 88 to 151: from the reply to the response. *)
Definition after_post (request : Request) (response : Httpx.Response)
  : option (M JSONResponse) :=
  match (do _ <-- log_bad_request response ;; raise_for_status response) with
  | inl e => Some (inl e)
  | inr _ => normalize request response
  end.

(** Lines 153 to 163: the two [except] clauses. *)
Definition on_exception (e : pyexn) : outcome :=
  match e with
  | HTTPError msg => Raised 500 ("Error forwarding request: " +:+ msg)
  | Exception msg => Raised 500 ("Internal server error: " +:+ msg)
  end.

(** The handler: the upstream calls it made, and how it ended. *)
Definition proxy_mcp_request (request : Request) : list UpstreamCall * outcome :=
  match before_post request with
  | inl e => ([], on_exception e)
  | inr call =>
      ([call],
       match post call with
       | inl e => on_exception e
       | inr response =>
           match after_post request response with
           | Some (inl e) => on_exception e
           | Some (inr r) => Returned r
           | None => Unfinished
           end
       end)
  end.

End Handler.

(** ** Reference decoders for the literal fragment

    [eval] and [json.loads] are arguments of the handler.  To run the
    handler on concrete traffic, this module gives decoders for the part of
    the two syntaxes made of integers, strings without escapes, lists,
    dicts with string keys and the three constants.  What [Literal.eval]
    accepts Python's [eval] accepts, with the same object, and likewise
    [Literal.loads] and [json.loads]; they refuse everything else, which
    includes texts that Python accepts (floats, escapes, a comma before a
    closing bracket).  The runs below only rely on refusals that are
    Python's too. *)
Module Literal.

Inductive syntax : Type := Python | Json.

Definition dquote : ascii := ascii_of_nat 34.
Definition squote : ascii := ascii_of_nat 39.
Definition backslash : ascii := ascii_of_nat 92.

(** Writes a text with double quotes: every backquote stands for one. *)
Fixpoint j (s : string) : string :=
  match s with
  | EmptyString => EmptyString
  | String c s' => String (if Ascii.eqb c "`" then dquote else c) (j s')
  end.

Definition is_ws (c : ascii) : bool :=
  let n := nat_of_ascii c in
  ((n =? 32)%nat || (n =? 9)%nat || (n =? 10)%nat || (n =? 13)%nat)%bool.

Fixpoint skip_ws (s : string) : string :=
  match s with
  | String c s' => if is_ws c then skip_ws s' else s
  | EmptyString => EmptyString
  end.

Definition is_digit (c : ascii) : bool :=
  let n := nat_of_ascii c in ((48 <=? n)%nat && (n <=? 57)%nat)%bool.

(** The digits at the head of [s], as a number, and the rest. *)
Fixpoint digits (acc : Z) (count : nat) (s : string) : Z * nat * string :=
  match s with
  | String c s' =>
      if is_digit c
      then digits (10 * acc + Z.of_nat (nat_of_ascii c - 48)) (S count) s'
      else (acc, count, s)
  | EmptyString => (acc, count, s)
  end.

(** An integer: digits without a leading zero, perhaps after a minus. *)
Definition number (s : string) : option (value * string) :=
  let '(neg, s1) :=
    match s with
    | String c s' => if Ascii.eqb c "-" then (true, s') else (false, s)
    | EmptyString => (false, s)
    end in
  let '(n, count, rest) := digits 0 O s1 in
  match count with
  | O => None
  | S O => Some (VInt (if neg then - n else n), rest)
  | _ => if Str.startswith "0" s1 then None
         else Some (VInt (if neg then - n else n), rest)
  end.

(** The characters up to the closing quote [q]; no escapes, no control
    characters. *)
Fixpoint quoted (q : ascii) (s : string) : option (string * string) :=
  match s with
  | EmptyString => None
  | String c s' =>
      if Ascii.eqb c q then Some (EmptyString, s')
      else if (Ascii.eqb c backslash || (nat_of_ascii c <? 32)%nat)%bool then None
      else match quoted q s' with
           | Some (w, rest) => Some (String c w, rest)
           | None => None
           end
  end.

(** A string literal at the head of [s]. *)
Definition str_literal (syn : syntax) (s : string) : option (string * string) :=
  match s with
  | String c s' =>
      if Ascii.eqb c dquote then quoted dquote s'
      else if Ascii.eqb c squote
           then match syn with Python => quoted squote s' | Json => None end
           else None
  | EmptyString => None
  end.

Definition keyword (syn : syntax) (s : string) : option (value * string) :=
  let kw (w : string) (v : value) :=
    if Str.startswith w s then Some (v, Str.drop (String.length w) s) else None in
  match syn with
  | Python =>
      match kw "True" (VBool true), kw "False" (VBool false), kw "None" VNone with
      | Some r, _, _ | _, Some r, _ | _, _, Some r => Some r
      | _, _, _ => None
      end
  | Json =>
      match kw "true" (VBool true), kw "false" (VBool false), kw "null" VNone with
      | Some r, _, _ | _, Some r, _ | _, _, Some r => Some r
      | _, _, _ => None
      end
  end.

Definition head_is (c : ascii) (s : string) : option string :=
  match s with
  | String c' s' => if Ascii.eqb c c' then Some s' else None
  | EmptyString => None
  end.

Fixpoint parse (syn : syntax) (fuel : nat) (s : string) : option (value * string) :=
  match fuel with
  | O => None
  | S fuel' =>
      let s := skip_ws s in
      match head_is "{" s, head_is "[" s with
      | Some r, _ =>
          match head_is "}" (skip_ws r) with
          | Some r' => Some (VDict [], r')
          | None => members syn fuel' [] r
          end
      | _, Some r =>
          match head_is "]" (skip_ws r) with
          | Some r' => Some (VList [], r')
          | None => elements syn fuel' [] r
          end
      | None, None =>
          match str_literal syn s with
          | Some (w, r) => Some (VStr w, r)
          | None =>
              match keyword syn s with
              | Some res => Some res
              | None => number s
              end
          end
      end
  end
with elements (syn : syntax) (fuel : nat) (acc : list value) (s : string)
  : option (value * string) :=
  match fuel with
  | O => None
  | S fuel' =>
      match parse syn fuel' s with
      | Some (v, r) =>
          match head_is "," (skip_ws r), head_is "]" (skip_ws r) with
          | Some r', _ => elements syn fuel' (acc ++ [v]) r'
          | _, Some r' => Some (VList (acc ++ [v]), r')
          | None, None => None
          end
      | None => None
      end
  end
with members (syn : syntax) (fuel : nat) (acc : list (string * value)) (s : string)
  : option (value * string) :=
  match fuel with
  | O => None
  | S fuel' =>
      match str_literal syn (skip_ws s) with
      | Some (k, r) =>
          match head_is ":" (skip_ws r) with
          | Some r1 =>
              match parse syn fuel' r1 with
              | Some (v, r2) =>
                  match head_is "," (skip_ws r2), head_is "}" (skip_ws r2) with
                  | Some r', _ => members syn fuel' (dict_set acc k v) r'
                  | _, Some r' => Some (VDict (dict_set acc k v), r')
                  | None, None => None
                  end
              | None => None
              end
          | None => None
          end
      | None => None
      end
  end.

(** The whole text is one literal, between optional blanks. *)
Definition decode (syn : syntax) (s : string) : option value :=
  match parse syn (2 * String.length s + 2) s with
  | Some (v, r) => match skip_ws r with EmptyString => Some v | _ => None end
  | None => None
  end.

Definition eval (s : string) : option value := decode Python s.

Definition loads (s : string) : string + value :=
  match decode Json s with
  | Some v => inr v
  | None => inl "not a JSON document"
  end.

End Literal.

(** ** The processor [payload_transformer] *)

Module PayloadTransformer.

(** [obj[key]] for a string key *)
Definition getitem (obj : value) (key : string) : M value :=
  match obj with
  | VDict d =>
      match dict_get d key with
      | Some v => ret v
      | None => raise (Exception ("'" +:+ key +:+ "'"))                (* KeyError *)
      end
  | VList _ => raise (Exception "list indices must be integers or slices, not str")
  | VStr _ => raise (Exception "string indices must be integers, not 'str'")
  | v => raise (Exception ("'" +:+ type_name v +:+ "' object is not subscriptable"))
  end.

(** [key in obj] for a string key *)
Definition contains (obj : value) (key : string) : M bool :=
  match obj with
  | VDict d => ret (match dict_get d key with Some _ => true | None => false end)
  | VList l =>
      ret (existsb (fun v => match v with VStr s => String.eqb s key | _ => false end) l)
  | VStr s => ret (Str.contains key s)
  | v => raise (Exception ("argument of type '" +:+ type_name v +:+ "' is not iterable"))
  end.

(** [obj[key] = v] for a string key: the object after the assignment *)
Definition setitem (obj : value) (key : string) (v : value) : M value :=
  match obj with
  | VDict d => ret (VDict (dict_set d key v))
  | VList _ => raise (Exception "list indices must be integers or slices, not str")
  | o => raise (Exception ("'" +:+ type_name o +:+ "' object does not support item assignment"))
  end.

(** Lines 33 to 37, on the object [payload]: the object after them.  The
    dicts reached through [payload] are changed where they are, which in
    a tree of values is a write on the path from the root. *)
Definition add_custom_header (payload : value) : M value :=
  do params <-- getitem payload "params" ;;
  do has_arguments <-- contains params "arguments" ;;
  do params <-- (if negb has_arguments
                 then setitem params "arguments" (VDict [])
                 else ret params) ;;
  do arguments <-- getitem params "arguments" ;;
  do arguments <-- setitem arguments "x-processor" (VStr "payload_transformer") ;;
  do params <-- setitem params "arguments" arguments ;;
  setitem payload "params" params.

(** [process(event)]: the dict it returns, and [event] as the call leaves
    it ([event["payload"]] and the returned payload are one object). *)
Definition process (event : value) : M (value * value) :=
  do payload <-- getitem event "payload" ;;
  do has_params <-- contains payload "params" ;;
  do changed <-- (if has_params
                  then do payload <-- add_custom_header payload ;;
                       ret (payload, VList [VStr "added x-processor header"])
                  else ret (payload, VList [])) ;;
  let '(payload, modifications) := changed in
  do event <-- setitem event "payload" payload ;;
  ret (VDict [("status", VInt 200);
              ("payload", payload);
              ("error", VNone);
              ("metadata", VDict [("processor_name", VStr "payload_transformer");
                                  ("modifications", VList [])])],
       event).

(** The items of [params.arguments] as lines 34 to 36 find them: those of
    the entry when there is one, none when line 35 creates it. *)
Definition arguments_of (ps : list (string * value)) : list (string * value) :=
  match dict_get ps "arguments" with
  | Some (VDict args) => args
  | _ => []
  end.

(** A payload of items [pl], with params of items [ps], after line 36. *)
Definition transformed (pl ps : list (string * value)) : value :=
  VDict (dict_set pl "params"
    (VDict (dict_set ps "arguments"
      (VDict (dict_set (arguments_of ps) "x-processor" (VStr "payload_transformer")))))).

(** [main()]: what is printed, and the exit status. *)
Definition main (json_load : string -> string + value) (stdin : string) : value * Z :=
  let run :=
    do event <-- match json_load stdin with
                 | inl msg => raise (Exception msg)
                 | inr v => ret v
                 end ;;
    process event in
  match run with
  | inr (result, _) => (result, 0)
  | inl e =>
      (VDict [("status", VInt 500);
              ("payload", VDict []);
              ("error", VStr (str_of_exn e));
              ("metadata", VDict [("processor_name", VStr "payload_transformer")])],
       0)
  end.

End PayloadTransformer.

(** ** The specification's reading of the event stream *)

(** The first line that carries the data marker, if there is one. *)
Fixpoint first_data_line (lines : list string) : option string :=
  match lines with
  | [] => None
  | line :: lines' =>
      if Str.startswith "data: " line then Some line else first_data_line lines'
  end.

(** The tie-break as the specification words it: the first data line alone
    is the source of the payload, whether its remainder decodes or not. *)
Definition first_data_line_only
    (py_eval : Frame -> string -> Frame * option value)
    (json_loads : string -> string + value)
    (frame : Frame) : option value :=
  match first_data_line (frame_lines frame) with
  | Some line =>
      match py_eval frame (Str.drop 6 line) with
      | (_, Some v) => Some v
      | (_, None) =>
          match json_loads (Str.drop 6 line) with
          | inr v => Some v
          | inl _ => None
          end
      end
  | None => None
  end.

(** [eval] of [text] in [frame] gives [r] and has no effect: it leaves the
    frame as it found it, be the name [json] bound or not. *)
Definition eval_quietly
    (py_eval : Frame -> string -> Frame * option value)
    (frame : Frame) (text : string) (r : option value) : Prop :=
  forall b, py_eval (with_json b frame) text = (with_json b frame, r).

(** A text decodes to [v] under the handler's two attempts, [eval] first. *)
Definition decodes_to
    (py_eval : Frame -> string -> Frame * option value)
    (json_loads : string -> string + value)
    (frame : Frame) (text : string) (v : value) : Prop :=
  eval_quietly py_eval frame text (Some v)
  \/ (eval_quietly py_eval frame text None /\ json_loads text = inr v).

(** Neither attempt accepts the text. *)
Definition undecodable
    (py_eval : Frame -> string -> Frame * option value)
    (json_loads : string -> string + value)
    (frame : Frame) (text : string) : Prop :=
  eval_quietly py_eval frame text None /\ exists msg, json_loads text = inl msg.

(** A line the loop passes over: no data marker, or a remainder that does
    not decode. *)
Definition skipped
    (py_eval : Frame -> string -> Frame * option value)
    (json_loads : string -> string + value)
    (frame : Frame) (line : string) : Prop :=
  Str.startswith "data: " line = false \/
  undecodable py_eval json_loads frame (Str.drop 6 line).

(** ** Concrete traffic *)

Module Sample.

Definition status_error (r : Httpx.Response) : string := "upstream status error".
Definition dumps_error (v : value) : string := "Object is not JSON serializable".

(** The reference evaluator in a frame: a literal reads nothing of the
    frame and changes nothing in it. *)
Definition eval (frame : Frame) (text : string) : Frame * option value :=
  (frame, Literal.eval text).

(** The loop is followed for this many iterations. *)
Definition loop_bound : nat := 64.

(** Nothing that the reference evaluator reads. *)
Definition module_globals : value := VDict [].

(** The frame of the handler when the loop starts on [response]. *)
Definition frame (request : Request) (response : Httpx.Response) : Frame :=
  first_frame Str.strip_ascii module_globals request response.

(** The handler with the reference [strip] and decoders, in front of an
    upstream that gives [reply] to every call. *)
Definition handler (reply : M Httpx.Response) (request : Request)
  : list UpstreamCall * outcome :=
  proxy_mcp_request Str.strip_ascii eval Literal.loads (fun _ => reply)
    status_error dumps_error loop_bound module_globals request.

(** As [handler], with a [json.loads] that reads [NaN] as Python's does:
    a float that [json.dumps(allow_nan=False)] refuses. *)
Definition loads_nan (s : string) : string + value :=
  if String.eqb s "NaN" then inr (VOther "float" true false) else Literal.loads s.

Definition handler_nan (reply : M Httpx.Response) (request : Request)
  : list UpstreamCall * outcome :=
  proxy_mcp_request Str.strip_ascii eval loads_nan (fun _ => reply)
    status_error dumps_error loop_bound module_globals request.

Definition text_of (ls : list string) : string := Str.join (String Str.LF "") ls.

Definition tools_list_body : string :=
  Literal.j "{`jsonrpc`: `2.0`, `id`: 1, `method`: `tools/list`}".

Definition tools_list_json : value :=
  VDict [("jsonrpc", VStr "2.0"); ("id", VInt 1); ("method", VStr "tools/list")].

(** A request without a session id. *)
Definition plain_request : Request :=
  {| wire_headers := [("Content-Type", "application/json")];
     body := tools_list_body |}.

(** A request with a session id, a cookie and the target override. *)
Definition session_request : Request :=
  {| wire_headers := [("Content-Type", "application/json");
                      ("Cookie", "secret=1");
                      ("Centian-Url", "https://example.org/mcp");
                      ("Mcp-Session-Id", "abc123")];
     body := tools_list_body |}.

(** A request whose session-id header is there and empty. *)
Definition empty_session_request : Request :=
  {| wire_headers := [("mcp-session-id", "")]; body := tools_list_body |}.

(** A request whose body is not JSON. *)
Definition malformed_request : Request :=
  {| wire_headers := []; body := "{oops" |}.

Definition plain_call : UpstreamCall :=
  {| call_url := CONTEXT7_BASE_URL;
     call_json := tools_list_json;
     call_headers := fixed_headers |}.

Definition session_call : UpstreamCall :=
  {| call_url := "https://example.org/mcp";
     call_json := tools_list_json;
     call_headers := <["mcp-session-id" := "abc123"]> fixed_headers |}.

(** Replies of the upstream. *)
Definition json_reply : Httpx.Response :=
  {| Httpx.status_code := 200;
     Httpx.headers := [("Content-Type", "application/json");
                       ("Mcp-Session-Id", "abc123")];
     Httpx.text := Literal.j "{`result`: `ok`}" |}.

Definition json_charset_reply : Httpx.Response :=
  {| Httpx.status_code := 200;
     Httpx.headers := [("Content-Type", "application/json; charset=utf-8")];
     Httpx.text := Literal.j "{`result`: `ok`}" |}.

Definition json_nan_reply : Httpx.Response :=
  {| Httpx.status_code := 200;
     Httpx.headers := [("Content-Type", "application/json")];
     Httpx.text := "NaN" |}.

Definition json_broken_reply : Httpx.Response :=
  {| Httpx.status_code := 201;
     Httpx.headers := [("Content-Type", "application/json")];
     Httpx.text := "{oops" |}.

Definition sse_reply : Httpx.Response :=
  {| Httpx.status_code := 200;
     Httpx.headers := [("Content-Type", "text/event-stream");
                       ("Mcp-Session-Id", "abc123")];
     Httpx.text := text_of ["event: message"; Literal.j "data: {`result`: `ok`}"; ""; ""] |}.

Definition sse_data_reply (payload_text : string) : Httpx.Response :=
  {| Httpx.status_code := 200;
     Httpx.headers := [("Content-Type", "text/event-stream")];
     Httpx.text := text_of ["event: message"; "data: " +:+ payload_text; ""] |}.

Definition sse_python_reply : Httpx.Response := sse_data_reply "{'result': 'ok'}".

Definition sse_two_data_reply : Httpx.Response :=
  {| Httpx.status_code := 200;
     Httpx.headers := [("Content-Type", "text/event-stream")];
     Httpx.text := text_of ["data: {oops"; "data: [1, 2]"] |}.

Definition sse_no_data_reply : Httpx.Response :=
  {| Httpx.status_code := 200;
     Httpx.headers := [("Content-Type", "text/event-stream")];
     Httpx.text := text_of ["event: ping"; ": keep-alive"] |}.

Definition bad_request_reply : Httpx.Response :=
  {| Httpx.status_code := 400;
     Httpx.headers := [("Content-Type", "text/plain")];
     Httpx.text := "Bad Request" |}.

Definition not_found_reply : Httpx.Response :=
  {| Httpx.status_code := 404;
     Httpx.headers := [("Content-Type", "application/json")];
     Httpx.text := Literal.j "{`error`: `no such tool`}" |}.

(** Events for the processor. *)
Definition call_event : value :=
  VDict [("type", VStr "request");
         ("payload", VDict [("method", VStr "tools/call");
                            ("params", VDict [("name", VStr "search")])])].

Definition positional_event : value :=
  VDict [("type", VStr "request");
         ("payload", VDict [("method", VStr "subtract");
                            ("params", VList [VInt 42; VInt 23])])].

End Sample.

(** ** The health probe [health_check] *)

(** The dict that [health_check] returns on its first [return]. *)
Record HealthReport : Type := {
  proxy_status : string;
  context7_status : string;
  proxy_target : string;
  exc : option pyexn
}.

(** The headers of the probe (lines 186 to 190). *)
Definition probe_headers : gmap string string :=
  <["CONTEXT7_API_KEY" := "ctx7sk-579d7ca0-4646-4a4d-b8b9-a45b321fc845"]>
    (<["Accept" := "application/json, text/event-stream"]>
       (<["Content-Type" := "text/event-stream"]> ∅)).

(** [health_check()], for a client whose [get(url, headers=...)] is [get]
    (the timeout of the probe, 5 seconds, is the client's business).  The
    outer [try] has nothing to catch: the inner one takes every exception
    of the probe. *)
Definition health_check (get : string -> gmap string string -> M Httpx.Response)
  : HealthReport :=
  match get CONTEXT7_BASE_URL probe_headers with
  | inr response =>
      {| proxy_status := "healthy";
         context7_status :=
           if Httpx.status_code response =? 200 then "healthy" else "unhealthy";
         proxy_target := CONTEXT7_BASE_URL;
         exc := None |}
  | inl ex =>
      {| proxy_status := "healthy";
         context7_status := "unreachable";
         proxy_target := CONTEXT7_BASE_URL;
         exc := Some ex |}
  end.

(** ** The other processors *)

(** [obj.get(key, default)]: only a dict has [get]. *)
Definition py_get (obj : value) (key : string) (dflt : value) : M value :=
  match obj with
  | VDict d => ret (from_option id dflt (dict_get d key))
  | v => raise (Exception ("'" +:+ type_name v +:+ "' object has no attribute 'get'"))
  end.

(** The dict every processor returns on success. *)
Definition success_result (processor_name : string) (payload : value) : value :=
  VDict [("status", VInt 200);
         ("payload", payload);
         ("error", VNone);
         ("metadata", VDict [("processor_name", VStr processor_name);
                             ("modifications", VList [])])].

(** The dict every [main] prints when an exception reaches it. *)
Definition error_result (processor_name : string) (e : pyexn) : value :=
  VDict [("status", VInt 500);
         ("payload", VDict []);
         ("error", VStr (str_of_exn e));
         ("metadata", VDict [("processor_name", VStr processor_name)])].

(** [main()] of a processor: [json.load(sys.stdin)], [process], and what is
    printed with the exit status. *)
Definition main_of (processor_name : string) (process : value -> M value)
    (json_load : string -> string + value) (stdin : string) : value * Z :=
  let run :=
    do event <-- match json_load stdin with
                 | inl msg => raise (Exception msg)
                 | inr v => ret v
                 end ;;
    process event in
  match run with
  | inr result => (result, 0)
  | inl e => (error_result processor_name e, 0)
  end.

Module Passthrough.

(** [process(event)] of [integration_tests/processors/passthrough.py] *)
Definition process (event : value) : M value :=
  do payload <-- PayloadTransformer.getitem event "payload" ;;
  ret (success_result "passthrough" payload).

Definition main : (string -> string + value) -> string -> value * Z :=
  main_of "passthrough" process.

End Passthrough.

Module SecurityValidator.

(** The dict of lines 34 to 39. *)
Definition blocked : value :=
  VDict [("status", VInt 403);
         ("payload", VDict []);
         ("error", VStr "Delete operations not allowed");
         ("metadata", VDict [("processor_name", VStr "security_validator")])].

(** [payload.get("method", "").lower()]: only a string has [lower]. *)
Definition method_lower (payload : value) : M string :=
  do method <-- py_get payload "method" (VStr "") ;;
  match method with
  | VStr s => ret (Str.lower s)
  | v => raise (Exception ("'" +:+ type_name v +:+ "' object has no attribute 'lower'"))
  end.

(** [process(event)] of [integration_tests/processors/security_validator.py] *)
Definition process (event : value) : M value :=
  do payload <-- PayloadTransformer.getitem event "payload" ;;
  do method <-- method_lower payload ;;
  if Str.contains "delete" method then ret blocked
  else ret (success_result "security_validator" payload).

Definition main : (string -> string + value) -> string -> value * Z :=
  main_of "security_validator" process.

End SecurityValidator.

Module RequestLogger.

Section Logging.

(** [datetime.now().isoformat()] at the call. *)
Variable now : string.
(** [str(e)] of the [OSError] with which [os.makedirs], [open] or [write]
    refuses, if one does; a write is taken to happen whole or not at all. *)
Variable io_error : option string.

(** Lines 36 to 40. *)
Definition log_entry (event payload : value) : M value :=
  do type <-- PayloadTransformer.getitem event "type" ;;
  do method <-- py_get payload "method" (VStr "unknown") ;;
  ret (VDict [("timestamp", VStr now); ("type", type); ("method", method)]).

(** [process(event)] of [integration_tests/processors/request_logger.py]
    on the log file, held as the list of the objects whose [json.dumps] are
    its lines: the file after the call, and how the call ends. *)
Definition process (log : list value) (event : value) : list value * M value :=
  match (do payload <-- PayloadTransformer.getitem event "payload" ;;
         do entry <-- log_entry event payload ;;
         ret (payload, entry)) with
  | inl e => (log, inl e)
  | inr (payload, entry) =>
      match io_error with
      | Some msg => (log, inl (Exception msg))
      | None => (log ++ [entry], inr (success_result "request_logger" payload))
      end
  end.

End Logging.

End RequestLogger.

(** ** More traffic *)

Module More.

(** A request whose body is JSON and no mapping. *)
Definition list_request : Request :=
  {| wire_headers := [("Content-Type", "application/json")]; body := "[1, 2]" |}.

(** The request of [Sample.session_request] with other headers around the
    same session id and target override. *)
Definition session_request' : Request :=
  {| wire_headers := [("Authorization", "Bearer t0ken");
                      ("MCP-SESSION-ID", "abc123");
                      ("centian-url", "https://example.org/mcp")];
     body := Sample.tools_list_body |}.

Definition text_reply : Httpx.Response :=
  {| Httpx.status_code := 202;
     Httpx.headers := [("Content-Type", "text/plain"); ("Mcp-Session-Id", "abc123")];
     Httpx.text := "accepted" |}.

Definition sse_empty_payload_reply : Httpx.Response :=
  {| Httpx.status_code := 200;
     Httpx.headers := [("Content-Type", "text/event-stream")];
     Httpx.text := Sample.text_of ["event: message"; "data: {}"] |}.

Definition sse_undecodable_reply : Httpx.Response :=
  {| Httpx.status_code := 200;
     Httpx.headers := [("Content-Type", "text/event-stream")];
     Httpx.text := Sample.text_of ["event: message"; "data: {oops"] |}.

Definition sse_session_reply : Httpx.Response :=
  {| Httpx.status_code := 200;
     Httpx.headers := [("content-type", "text/event-stream; charset=utf-8");
                       ("MCP-Session-Id", "s-42");
                       ("Set-Cookie", "k=v")];
     Httpx.text := Sample.text_of ["data: [1, 2]"] |}.

(** A request whose first session-id header is empty and whose second is
    not. *)
Definition two_session_request : Request :=
  {| wire_headers := [("mcp-session-id", ""); ("Mcp-Session-Id", "abc123")];
     body := Sample.tools_list_body |}.

(** A body that Python's [json.loads] accepts and that is no JSON document:
    to Python's decoder [NaN] is a number. *)
Definition nan_body : string :=
  Literal.j "{`jsonrpc`: `2.0`, `id`: NaN, `method`: `tools/list`}".

Definition nan_json : value :=
  VDict [("jsonrpc", VStr "2.0"); ("id", VOther "float" true false);
         ("method", VStr "tools/list")].

Definition nan_request : Request :=
  {| wire_headers := [("Content-Type", "application/json")]; body := nan_body |}.

Definition nan_call : UpstreamCall :=
  {| call_url := CONTEXT7_BASE_URL;
     call_json := nan_json;
     call_headers := fixed_headers |}.

(** [json.loads] as Python has it on that body. *)
Definition loads_python (s : string) : string + value :=
  if String.eqb s nan_body then inr nan_json else Sample.loads_nan s.

Definition handler_python (reply : M Httpx.Response) (request : Request)
  : list UpstreamCall * outcome :=
  proxy_mcp_request Str.strip_ascii Sample.eval loads_python (fun _ => reply)
    Sample.status_error Sample.dumps_error Sample.loop_bound
    Sample.module_globals request.

(** An event stream of four lines, the second and the third with the
    marker. *)
Definition sse_four_line_reply : Httpx.Response :=
  {| Httpx.status_code := 200;
     Httpx.headers := [("Content-Type", "text/event-stream")];
     Httpx.text :=
       Sample.text_of ["event: message"; "data: {oops"; "data: [1, 2]"; "data: [3]"] |}.

(** An event stream whose data line is JSON and no Python. *)
Definition sse_json_only_reply : Httpx.Response :=
  Sample.sse_data_reply (Literal.j "{`done`: true}").

(** An event stream whose only line has white space before the marker. *)
Definition sse_indented_data_reply : Httpx.Response :=
  {| Httpx.status_code := 200;
     Httpx.headers := [("Content-Type", "text/event-stream")];
     Httpx.text := "  data: [1]" |}.

(** An event stream without a data line, sent with status 404. *)
Definition sse_not_found_reply : Httpx.Response :=
  {| Httpx.status_code := 404;
     Httpx.headers := [("Content-Type", "text/event-stream")];
     Httpx.text := Sample.text_of ["event: ping"; ": keep-alive"] |}.

(** An evaluator that knows one expression more than the literals: the
    cookie of the inbound request, read from the local [request_headers]. *)
Definition eval_cookie (frame : Frame) (text : string) : Frame * option value :=
  if String.eqb text "request_headers.get('cookie')" then
    let request_headers := request_headers (request_headers_of (frame_request frame)) in
    (frame,
     Some match Starlette.get request_headers "cookie" with
          | Some s => VStr s
          | None => VNone
          end)
  else Sample.eval frame text.

Definition sse_cookie_reply : Httpx.Response :=
  Sample.sse_data_reply "request_headers.get('cookie')".

(** An evaluator that knows one expression with an effect: it sets the
    status of the local [response] and answers a list. *)
Definition eval_setattr (frame : Frame) (text : string) : Frame * option value :=
  if String.eqb text "[setattr(response, 'status_code', 418)]" then
    ({| frame_request := frame_request frame;
        frame_response :=
          {| Httpx.status_code := 418;
             Httpx.headers := Httpx.headers (frame_response frame);
             Httpx.text := Httpx.text (frame_response frame) |};
        frame_lines := frame_lines frame;
        frame_json := frame_json frame;
        frame_globals := frame_globals frame |},
     Some (VList [VNone]))
  else Sample.eval frame text.

Definition sse_setattr_reply : Httpx.Response :=
  Sample.sse_data_reply "[setattr(response, 'status_code', 418)]".

(** The handler of [Sample.handler] with another evaluator. *)
Definition handler_with (eval : Frame -> string -> Frame * option value)
    (reply : M Httpx.Response) (request : Request)
  : list UpstreamCall * outcome :=
  proxy_mcp_request Str.strip_ascii eval Literal.loads (fun _ => reply)
    Sample.status_error Sample.dumps_error Sample.loop_bound
    Sample.module_globals request.

Definition delete_event : value :=
  VDict [("type", VStr "request");
         ("payload", VDict [("method", VStr "resources/Delete_file");
                            ("params", VDict [])])].

Definition list_event : value :=
  VDict [("type", VStr "request");
         ("payload", VDict [("method", VStr "tools/list")])].

Definition untyped_event : value :=
  VDict [("payload", VDict [("method", VStr "tools/list")])].

End More.

(** * Properties *)

(** ** The scan of the event stream *)

Section Scan.

Variable py_eval : Frame -> string -> Frame * option value.
Variable json_loads : string -> string + value.

Local Abbreviation scan := (json_data py_eval json_loads).
Local Abbreviation skips := (skipped py_eval json_loads).
Local Abbreviation decodes := (decodes_to py_eval json_loads).

Lemma json_data_S steps frame i :
  scan (S steps) frame i =
  match frame_lines frame !! i with
  | None => Some (frame, None)
  | Some line =>
      if Str.startswith "data: " line then
        match py_eval frame (Str.drop 6 line) with
        | (frame', Some v) => Some (frame', Some v)
        | (frame', None) =>
            match json_loads (Str.drop 6 line) with
            | inr v => Some (with_json true frame', Some v)
            | inl _ => scan steps (with_json true frame') (S i)
            end
        end
      else scan steps frame (S i)
  end.
Proof. reflexivity. Qed.

Lemma with_json_id frame : with_json (frame_json frame) frame = frame.
Proof. now destruct frame. Qed.

(** An item that the loop passes over: the loop goes on with the next,
    in the same frame but for the name [json]. *)
Lemma json_data_skip frame i line b steps :
  frame_lines frame !! i = Some line ->
  skips frame line ->
  exists b', scan (S steps) (with_json b frame) i
             = scan steps (with_json b' frame) (S i).
Proof.
  intros Hline Hskip. rewrite json_data_S. cbn [with_json frame_lines].
  rewrite Hline. destruct Hskip as [Hno | [Hev [msg Hld]]].
  - rewrite Hno. eauto.
  - destruct (Str.startswith "data: " line); [| eauto].
    rewrite (Hev b), Hld. exists true. reflexivity.
Qed.

Lemma json_data_skip_all frame pre : forall done rest b steps,
  frame_lines frame = done ++ pre ++ rest ->
  Forall (skips frame) pre ->
  exists b', scan (length pre + steps) (with_json b frame) (length done)
             = scan steps (with_json b' frame) (length done + length pre).
Proof.
  induction pre as [| line pre IH]; intros done rest b steps Hlines Hskip.
  - exists b. simpl. now rewrite Nat.add_0_r.
  - apply Forall_cons in Hskip. destruct Hskip as [Hline Hpre].
    destruct (json_data_skip frame (length done) line b (length pre + steps))
      as [b1 Hstep]; [| assumption |].
    { rewrite Hlines. apply list_lookup_middle. reflexivity. }
    destruct (IH (done ++ [line]) rest b1 steps) as [b2 Hrest]; [| assumption |].
    { rewrite Hlines, <- app_assoc. reflexivity. }
    exists b2. cbn [length Nat.add]. rewrite Hstep.
    rewrite length_app in Hrest. cbn [length] in Hrest.
    replace (S (length done)) with (length done + 1)%nat by lia.
    rewrite Hrest. f_equal. lia.
Qed.

(** Lines without the marker are passed over with the frame as it is:
    [eval] is not called on them. *)
Lemma json_data_no_marker frame pre : forall done rest steps,
  frame_lines frame = done ++ pre ++ rest ->
  Forall (fun l => Str.startswith "data: " l = false) pre ->
  scan (length pre + steps) frame (length done)
  = scan steps frame (length done + length pre).
Proof.
  induction pre as [| line pre IH]; intros done rest steps Hlines Hpre.
  - simpl. now rewrite Nat.add_0_r.
  - apply Forall_cons in Hpre. destruct Hpre as [Hline Hpre].
    assert (Hat : frame_lines frame !! length done = Some line).
    { rewrite Hlines. now apply list_lookup_middle. }
    cbn [length Nat.add]. rewrite json_data_S, Hat, Hline.
    replace (S (length done)) with (length (done ++ [line]))
      by (rewrite length_app; simpl; lia).
    rewrite (IH (done ++ [line]) rest steps); [| now rewrite <- app_assoc | assumption].
    f_equal. rewrite length_app. simpl. lia.
Qed.

(** An item whose remainder decodes ends the loop. *)
Lemma json_data_hit frame i line v b steps :
  frame_lines frame !! i = Some line ->
  Str.startswith "data: " line = true ->
  decodes frame (Str.drop 6 line) v ->
  exists b', scan (S steps) (with_json b frame) i = Some (with_json b' frame, Some v).
Proof.
  intros Hline Hdata Hv. rewrite json_data_S. cbn [with_json frame_lines].
  rewrite Hline, Hdata. destruct Hv as [Hev | [Hev Hld]].
  - rewrite (Hev b). eauto.
  - rewrite (Hev b), Hld. exists true. reflexivity.
Qed.

Lemma json_data_first_hit frame pre line rest v steps b :
  frame_lines frame = pre ++ line :: rest ->
  Forall (skips frame) pre ->
  Str.startswith "data: " line = true ->
  decodes frame (Str.drop 6 line) v ->
  (length pre < steps)%nat ->
  exists b', scan steps (with_json b frame) 0 = Some (with_json b' frame, Some v).
Proof.
  intros Hlines Hskip Hdata Hv Hsteps.
  replace steps with (length pre + S (steps - S (length pre)))%nat by lia.
  destruct (json_data_skip_all frame pre [] (line :: rest) b
              (S (steps - S (length pre))) Hlines Hskip) as [b1 Hpre].
  cbn [length Nat.add] in Hpre. rewrite Hpre.
  apply json_data_hit with (line := line); try assumption.
  rewrite Hlines. now apply list_lookup_middle.
Qed.

(** When every item is passed over, the loop ends without a payload. *)
Lemma json_data_all_skipped frame steps b :
  Forall (skips frame) (frame_lines frame) ->
  (length (frame_lines frame) < steps)%nat ->
  exists b', scan steps (with_json b frame) 0 = Some (with_json b' frame, None).
Proof.
  intros Hskip Hsteps.
  replace steps
    with (length (frame_lines frame) + S (steps - S (length (frame_lines frame))))%nat
    by lia.
  destruct (json_data_skip_all frame (frame_lines frame) [] [] b
              (S (steps - S (length (frame_lines frame)))))
    as [b1 Hall]; [now rewrite app_nil_r | assumption |].
  cbn [length Nat.add] in Hall. rewrite Hall, json_data_S.
  cbn [with_json frame_lines].
  rewrite lookup_ge_None_2 by lia. eauto.
Qed.

(** C2 (amended).  Provided that [eval] of the data lines that are tried
    has no effect on the frame: the source of the payload is the first
    data line whose remainder decodes, by [eval] or else by [json.loads];
    the lines before it are passed over, those without the marker and the
    data lines whose remainder does not decode alike, and no line after it
    is looked at.  The loop ends there, with [response] and [lines] as
    they were. *)
Theorem first_decodable_data_line_wins frame pre line rest v steps :
  frame_lines frame = pre ++ line :: rest ->
  Forall (skips frame) pre ->
  Str.startswith "data: " line = true ->
  decodes frame (Str.drop 6 line) v ->
  (length pre < steps)%nat ->
  exists frame',
    scan steps frame 0 = Some (frame', Some v)
    /\ frame_response frame' = frame_response frame
    /\ frame_lines frame' = frame_lines frame.
Proof.
  intros Hlines Hskip Hdata Hv Hsteps.
  destruct (json_data_skip_all frame pre [] (line :: rest) (frame_json frame)
              (S (steps - S (length pre))) Hlines Hskip) as [b1 Hpre].
  destruct (json_data_hit frame (length pre) line v b1 (steps - S (length pre)))
    as [b2 Hhit]; try assumption.
  { rewrite Hlines. now apply list_lookup_middle. }
  exists (with_json b2 frame). split; [| split; reflexivity].
  replace steps with (length pre + S (steps - S (length pre)))%nat by lia.
  rewrite <- (with_json_id frame) at 1.
  cbn [length Nat.add] in Hpre. now rewrite Hpre.
Qed.

Lemma first_data_line_cons line rest :
  first_data_line (line :: rest) =
  if Str.startswith "data: " line then Some line else first_data_line rest.
Proof. reflexivity. Qed.

Lemma first_data_line_app pre line rest :
  Forall (fun l => Str.startswith "data: " l = false) pre ->
  Str.startswith "data: " line = true ->
  first_data_line (pre ++ line :: rest) = Some line.
Proof.
  intros Hpre Hdata. induction Hpre as [| l pre Hl _ IH].
  - simpl app. now rewrite first_data_line_cons, Hdata.
  - rewrite <- app_comm_cons, first_data_line_cons, Hl. exact IH.
Qed.

End Scan.

(** ** The handler, step by step *)

Section HandlerFacts.

Variable strip : string -> string.
Variable py_eval : Frame -> string -> Frame * option value.
Variable json_loads : string -> string + value.
Variable post : UpstreamCall -> M Httpx.Response.
Variable status_error : Httpx.Response -> string.
Variable dumps_error : value -> string.
Variable loop_bound : nat.
Variable module_globals : value.

Local Abbreviation handler :=
  (proxy_mcp_request strip py_eval json_loads post status_error dumps_error
     loop_bound module_globals).
Local Abbreviation before := (before_post json_loads).
Local Abbreviation after :=
  (after_post strip py_eval json_loads status_error dumps_error loop_bound module_globals).
Local Abbreviation normalized :=
  (normalize strip py_eval json_loads dumps_error loop_bound module_globals).
Local Abbreviation streamed :=
  (streaming_response strip py_eval json_loads dumps_error loop_bound module_globals).
Local Abbreviation scan := (json_data py_eval json_loads).
Local Abbreviation frame0 := (first_frame strip module_globals).
Local Abbreviation skips := (skipped py_eval json_loads).
Local Abbreviation decodes := (decodes_to py_eval json_loads).

Lemma handler_no_call request e :
  before request = inl e -> handler request = ([], on_exception e).
Proof. unfold proxy_mcp_request. now intros ->. Qed.

Lemma handler_post_raises request call e :
  before request = inr call -> post call = inl e ->
  handler request = ([call], on_exception e).
Proof. unfold proxy_mcp_request. now intros -> ->. Qed.

Lemma handler_reply request call response :
  before request = inr call -> post call = inr response ->
  handler request =
  ([call], match after request response with
           | Some (inl e) => on_exception e
           | Some (inr r) => Returned r
           | None => Unfinished
           end).
Proof. unfold proxy_mcp_request. now intros -> ->. Qed.

Lemma success_not_400 response :
  Httpx.is_success response = true -> (Httpx.status_code response =? 400) = false.
Proof. unfold Httpx.is_success. lia. Qed.

Lemma after_post_success request response :
  Httpx.is_success response = true ->
  after request response = normalized request response.
Proof.
  intros Hok. unfold after_post, log_bad_request, raise_for_status.
  now rewrite (success_not_400 _ Hok), Hok.
Qed.

Lemma after_post_status_error request response :
  Httpx.is_success response = false ->
  (Httpx.status_code response =? 400) = false ->
  after request response = Some (inl (HTTPError (status_error response))).
Proof.
  intros Hko H400. unfold after_post, log_bad_request, raise_for_status.
  now rewrite H400, Hko.
Qed.

(** Whatever happens, a handler that ends returns a response or raises
    [HTTPException] with status 500. *)
Lemma handler_raises_only_500 request sc detail :
  snd (handler request) = Raised sc detail -> sc = 500.
Proof.
  unfold proxy_mcp_request.
  destruct (before request) as [e | call]; simpl.
  - destruct e; simpl; congruence.
  - destruct (post call) as [e | response]; [destruct e; simpl; congruence |].
    destruct (after request response) as [[e | r] |]; try discriminate.
    destruct e; simpl; congruence.
Qed.

(** A before-the-call failure is never an [HTTPError]. *)
Lemma before_post_exception request e :
  before request = inl e -> exists msg, e = Exception msg.
Proof.
  unfold before_post, loads.
  destruct (json_loads (body request)) as [msg | v]; simpl.
  - intros [= <-]. eauto.
  - destruct v; simpl; intros [= <-]; eauto.
Qed.

(** *** Malformed inbound body *)

(** C4 (amended).  When [json.loads] raises on the inbound body, with
    message [msg], the handler makes no upstream call and raises
    [HTTPException] with status 500, whose detail carries the decoder's
    description of the malformed input; the caller receives it as a
    response with status 500. *)
Theorem malformed_body_fails_fast request msg :
  json_loads (body request) = inl msg ->
  handler request = ([], Raised 500 ("Internal server error: " +:+ msg))
  /\ as_seen_by_caller (snd (handler request))
     = Some {| content := VDict [("detail", VStr ("Internal server error: " +:+ msg))];
               status := 500;
               resp_headers := ∅ |}.
Proof.
  intros Hbad.
  assert (Hpre : before request = inl (Exception msg)).
  { unfold before_post, loads. now rewrite Hbad. }
  rewrite (handler_no_call _ _ Hpre). now split.
Qed.

(** *** The event stream *)

Lemma streamed_of_scan request response frame found :
  scan loop_bound (frame0 request response) 0 = Some (frame, found) ->
  streamed request response =
  Some match found with
       | Some v =>
           if truthy v then
             new_JSONResponse dumps_error v
               (Httpx.status_code (frame_response frame))
               (response_headers (Httpx.headers (frame_response frame)))
           else inr (parse_failure (Httpx.text response))
       | None => inr (parse_failure (Httpx.text response))
       end.
Proof. unfold streaming_response. now intros ->. Qed.

Lemma frame0_lines request response :
  frame_lines (frame0 request response) = lines strip (Httpx.text response).
Proof. reflexivity. Qed.

(** The handler on a 2xx event stream, by what the loop finds. *)
Lemma handler_streamed request call response :
  before request = inr call ->
  post call = inr response ->
  Httpx.is_success response = true ->
  Str.contains "text/event-stream" (content_type response) = true ->
  handler request =
  ([call], match streamed request response with
           | Some (inl e) => on_exception e
           | Some (inr r) => Returned r
           | None => Unfinished
           end).
Proof.
  intros Hpre Hpost Hok Hsse.
  rewrite (handler_reply _ _ _ Hpre Hpost), (after_post_success _ _ Hok).
  unfold normalize. now rewrite Hsse.
Qed.

(** C8 (amended).  When the upstream answers with a 2xx status and an
    event stream in which, once the body is stripped of the white space
    around it and split into lines, no line starts with the data marker,
    the handler returns (it does not raise) a response with status 500
    whose payload holds the raw body text under the key [raw]. *)
Theorem sse_without_data_line request call response :
  before request = inr call ->
  post call = inr response ->
  Httpx.is_success response = true ->
  Str.contains "text/event-stream" (content_type response) = true ->
  Forall (fun line => Str.startswith "data: " line = false)
         (lines strip (Httpx.text response)) ->
  (length (lines strip (Httpx.text response)) < loop_bound)%nat ->
  handler request =
  ([call],
   Returned {| content := VDict [("error", VStr "Failed to parse streaming response");
                                 ("raw", VStr (Httpx.text response))];
               status := 500;
               resp_headers := ∅ |}).
Proof.
  intros Hpre Hpost Hok Hsse Hnone Hbound.
  rewrite (handler_streamed _ _ _ Hpre Hpost Hok Hsse).
  destruct (json_data_all_skipped py_eval json_loads (frame0 request response)
              loop_bound false) as [b Hscan].
  - rewrite frame0_lines. eapply Forall_impl; [exact Hnone |].
    intros line Hline. now left.
  - now rewrite frame0_lines.
  - now rewrite (streamed_of_scan request response _ _ Hscan).
Qed.

(** *** Failures of the upstream call *)

(** An exception of the [httpx.HTTPError] family raised by the call
    (timeout, connection error) becomes [HTTPException] with status 500 and
    the forwarding-error detail. *)
Lemma transport_error_is_forwarding_error request call msg :
  before request = inr call ->
  post call = inl (HTTPError msg) ->
  handler request = ([call], Raised 500 ("Error forwarding request: " +:+ msg)).
Proof. intros Hpre Hpost. now rewrite (handler_post_raises _ _ _ Hpre Hpost). Qed.

(** A reply whose status is not 2xx and not 400 becomes the same, whatever
    the status was. *)
Lemma status_error_is_forwarding_error request call response :
  before request = inr call ->
  post call = inr response ->
  Httpx.is_success response = false ->
  Httpx.status_code response <> 400 ->
  handler request =
  ([call], Raised 500 ("Error forwarding request: " +:+ status_error response)).
Proof.
  intros Hpre Hpost Hko H400.
  rewrite (handler_reply _ _ _ Hpre Hpost), after_post_status_error;
    [reflexivity | assumption |].
  now apply Z.eqb_neq.
Qed.

(** A reply with status 400 is decoded for the log first: when its body is
    JSON the forwarding error follows, and when it is not the decode error
    is what the second [except] clause reports. *)
Lemma bad_request_reply_outcome request call response :
  before request = inr call ->
  post call = inr response ->
  Httpx.status_code response = 400 ->
  handler request =
  ([call],
   match json_loads (Httpx.text response) with
   | inr _ => Raised 500 ("Error forwarding request: " +:+ status_error response)
   | inl msg => Raised 500 ("Internal server error: " +:+ msg)
   end).
Proof.
  intros Hpre Hpost H400.
  rewrite (handler_reply _ _ _ Hpre Hpost).
  unfold after_post, log_bad_request, loads, raise_for_status, Httpx.is_success.
  rewrite H400. simpl.
  now destruct (json_loads (Httpx.text response)).
Qed.

(** *** The plain reply *)

Lemma normalized_plain request response :
  Str.contains "text/event-stream" (content_type response) = false ->
  normalized request response =
  Some (new_JSONResponse dumps_error (response_data json_loads response)
          (Httpx.status_code response) ∅).
Proof. unfold normalize. now intros ->. Qed.

(** On the plain path the response is built without headers: a session id
    of the reply does not reach the caller. *)
Lemma plain_reply_has_no_headers request call response r :
  before request = inr call ->
  post call = inr response ->
  Str.contains "text/event-stream" (content_type response) = false ->
  snd (handler request) = Returned r ->
  resp_headers r = ∅.
Proof.
  intros Hpre Hpost Hplain.
  rewrite (handler_reply _ _ _ Hpre Hpost). simpl.
  unfold after_post.
  destruct (bind _ _) as [e | []]; simpl; [destruct e; discriminate |].
  rewrite (normalized_plain _ _ Hplain). unfold new_JSONResponse.
  destruct (serialisable _); simpl; [| discriminate].
  now intros [= <-].
Qed.

Lemma httpx_get_same_name (h : Httpx.Headers) k1 k2 :
  Str.lower k1 = Str.lower k2 -> Httpx.get h k1 = Httpx.get h k2.
Proof. unfold Httpx.get, Httpx.items. now intros ->. Qed.

Lemma content_type_exact response ct :
  Httpx.get (Httpx.headers response) "Content-Type" = Some ct ->
  content_type response = ct.
Proof.
  intros H. unfold content_type.
  now rewrite (httpx_get_same_name _ "content-type" "Content-Type"), H.
Qed.

(** C6 (amended).  When the upstream answers with a 2xx status and a
    content type that is exactly [application/json], the handler returns
    the upstream status with, as payload, the decoded body when it decodes
    to an object that [json.dumps] accepts, and the empty mapping when it
    does not decode. *)
Theorem json_reply_passthrough request call response :
  before request = inr call ->
  post call = inr response ->
  Httpx.is_success response = true ->
  Httpx.get (Httpx.headers response) "Content-Type" = Some "application/json" ->
  (forall v, json_loads (Httpx.text response) = inr v -> serialisable v = true ->
     handler request =
     ([call], Returned {| content := v;
                          status := Httpx.status_code response;
                          resp_headers := ∅ |}))
  /\ (forall msg, json_loads (Httpx.text response) = inl msg ->
     handler request =
     ([call], Returned {| content := VDict [];
                          status := Httpx.status_code response;
                          resp_headers := ∅ |})).
Proof.
  intros Hpre Hpost Hok Hct.
  rewrite (handler_reply _ _ _ Hpre Hpost), (after_post_success _ _ Hok).
  rewrite normalized_plain by now rewrite (content_type_exact _ _ Hct).
  unfold response_data, new_JSONResponse. rewrite Hct. simpl String.eqb.
  split.
  - intros v -> ->. reflexivity.
  - intros msg ->. reflexivity.
Qed.

(** *** The streaming reply *)

(** Provided that [eval] of the lines tried has no effect: the first data
    line that decodes gives the payload of the response, with the upstream
    status and the session id of the reply, when the object it decodes to
    is true and [json.dumps] accepts it. *)
Lemma streaming_reply_payload request call response pre line rest v :
  before request = inr call ->
  post call = inr response ->
  Httpx.is_success response = true ->
  Str.contains "text/event-stream" (content_type response) = true ->
  lines strip (Httpx.text response) = pre ++ line :: rest ->
  Forall (skips (frame0 request response)) pre ->
  Str.startswith "data: " line = true ->
  decodes (frame0 request response) (Str.drop 6 line) v ->
  (length pre < loop_bound)%nat ->
  truthy v = true ->
  serialisable v = true ->
  handler request =
  ([call], Returned {| content := v;
                       status := Httpx.status_code response;
                       resp_headers := response_headers (Httpx.headers response) |}).
Proof.
  intros Hpre Hpost Hok Hsse Hlines Hskip Hdata Hv Hbound Htrue Hser.
  rewrite (handler_streamed _ _ _ Hpre Hpost Hok Hsse).
  destruct (json_data_first_hit py_eval json_loads (frame0 request response)
              pre line rest v loop_bound false) as [b Hscan]; try assumption.
  rewrite (streamed_of_scan request response _ _ Hscan), Htrue.
  unfold new_JSONResponse. now rewrite Hser.
Qed.

(** What [eval] makes of the first data line is the payload, with the
    status and the headers of [response] as [eval] left them. *)
Lemma streamed_eval_answer request call response pre line rest frame' v :
  before request = inr call ->
  post call = inr response ->
  Httpx.is_success response = true ->
  Str.contains "text/event-stream" (content_type response) = true ->
  lines strip (Httpx.text response) = pre ++ line :: rest ->
  Forall (fun l => Str.startswith "data: " l = false) pre ->
  Str.startswith "data: " line = true ->
  py_eval (frame0 request response) (Str.drop 6 line) = (frame', Some v) ->
  (length pre < loop_bound)%nat ->
  truthy v = true ->
  serialisable v = true ->
  handler request =
  ([call], Returned {| content := v;
                       status := Httpx.status_code (frame_response frame');
                       resp_headers :=
                         response_headers (Httpx.headers (frame_response frame')) |}).
Proof.
  intros Hpre Hpost Hok Hsse Hlines Hnone Hdata Hev Hbound Htrue Hser.
  rewrite (handler_streamed _ _ _ Hpre Hpost Hok Hsse).
  assert (Hscan : scan loop_bound (frame0 request response) 0 = Some (frame', Some v)).
  { replace loop_bound with (length pre + S (loop_bound - S (length pre)))%nat by lia.
    rewrite (json_data_no_marker py_eval json_loads (frame0 request response)
               pre [] (line :: rest)); [| exact Hlines | exact Hnone].
    assert (Hat : frame_lines (frame0 request response) !! length pre = Some line).
    { rewrite frame0_lines, Hlines. now apply list_lookup_middle. }
    cbn [length Nat.add]. now rewrite json_data_S, Hat, Hdata, Hev. }
  rewrite (streamed_of_scan request response _ _ Hscan), Htrue.
  unfold new_JSONResponse. now rewrite Hser.
Qed.

(** C3.  In the loop the answer of [eval] on the remainder of a data line
    is taken whatever [json.loads] would say of it, and [json.loads] is
    asked only when [eval] raises; so the handler returns what [eval] made
    of the first data line, also when the text is no JSON.  The text
    [{'result': 'ok'}], in Python syntax, is such a text: the JSON decoder
    refuses it, [eval] reads it as a mapping, and the handler returns that
    mapping with status 200. *)
Theorem sse_eval_before_json :
  (forall steps frame i line frame' v,
     frame_lines frame !! i = Some line ->
     Str.startswith "data: " line = true ->
     py_eval frame (Str.drop 6 line) = (frame', Some v) ->
     scan (S steps) frame i = Some (frame', Some v))
  /\ (forall steps frame i line frame' v,
     frame_lines frame !! i = Some line ->
     Str.startswith "data: " line = true ->
     py_eval frame (Str.drop 6 line) = (frame', None) ->
     json_loads (Str.drop 6 line) = inr v ->
     scan (S steps) frame i = Some (with_json true frame', Some v))
  /\ (forall request call response pre line rest frame' v,
     before request = inr call ->
     post call = inr response ->
     Httpx.is_success response = true ->
     Str.contains "text/event-stream" (content_type response) = true ->
     lines strip (Httpx.text response) = pre ++ line :: rest ->
     Forall (fun l => Str.startswith "data: " l = false) pre ->
     Str.startswith "data: " line = true ->
     py_eval (frame0 request response) (Str.drop 6 line) = (frame', Some v) ->
     (length pre < loop_bound)%nat ->
     truthy v = true ->
     serialisable v = true ->
     handler request =
     ([call], Returned {| content := v;
                          status := Httpx.status_code (frame_response frame');
                          resp_headers :=
                            response_headers (Httpx.headers (frame_response frame')) |}))
  /\ (Literal.loads "{'result': 'ok'}" = inl "not a JSON document"
      /\ Literal.eval "{'result': 'ok'}" = Some (VDict [("result", VStr "ok")])
      /\ Httpx.text Sample.sse_python_reply
         = Sample.text_of ["event: message"; "data: {'result': 'ok'}"; ""]
      /\ Sample.handler (inr Sample.sse_python_reply) Sample.plain_request =
         ([Sample.plain_call],
          Returned {| content := VDict [("result", VStr "ok")];
                      status := 200;
                      resp_headers := ∅ |})).
Proof.
  split; [| split; [| split]].
  - intros steps frame i line frame' v Hline Hdata Hev.
    now rewrite json_data_S, Hline, Hdata, Hev.
  - intros steps frame i line frame' v Hline Hdata Hev Hld.
    now rewrite json_data_S, Hline, Hdata, Hev, Hld.
  - apply streamed_eval_answer.
  - repeat split; vm_compute; reflexivity.
Qed.

(** A session id of the reply, under either spelling of the header, is in
    the headers of the streaming response under the lower-case key. *)
Lemma response_headers_session_id (h : Httpx.Headers) name sid :
  Str.lower name = "mcp-session-id" ->
  Httpx.get h name = Some sid ->
  sid <> "" ->
  response_headers h !! "mcp-session-id" = Some sid.
Proof.
  intros Hname Hget Hsid. unfold response_headers.
  rewrite (httpx_get_same_name h "mcp-session-id" name) by now rewrite Hname.
  rewrite (httpx_get_same_name h "Mcp-Session-Id" name) by now rewrite Hname.
  rewrite Hget. unfold walrus.
  apply String.eqb_neq in Hsid. rewrite Hsid.
  now rewrite lookup_insert_eq.
Qed.

(** *** The headers sent upstream *)

Lemma starlette_get_same_name (h : Starlette.Headers) k1 k2 :
  Str.lower k1 = Str.lower k2 -> Starlette.get h k1 = Starlette.get h k2.
Proof.
  intros Heq. induction h as [| [k v] h IH]; simpl; [reflexivity |].
  now rewrite Heq, IH.
Qed.

Lemma starlette_get_first wire_pre name v wire_post key :
  Str.lower name = Str.lower key ->
  Forall (fun kv => Str.lower (fst kv) <> Str.lower key) wire_pre ->
  Starlette.get (Starlette.of_wire (wire_pre ++ (name, v) :: wire_post)) key = Some v.
Proof.
  intros Hname Hpre. induction Hpre as [| [k w] wire_pre Hk _ IH]; simpl.
  - now rewrite Hname, String.eqb_refl.
  - simpl in Hk. apply String.eqb_neq in Hk. now rewrite Hk.
Qed.

Lemma starlette_get_absent wire key :
  Forall (fun kv => Str.lower (fst kv) <> Str.lower key) wire ->
  Starlette.get (Starlette.of_wire wire) key = None.
Proof.
  induction 1 as [| [k w] wire Hk _ IH]; simpl; [reflexivity |].
  simpl in Hk. apply String.eqb_neq in Hk. now rewrite Hk.
Qed.

Lemma starlette_get_delitem (h : Starlette.Headers) gone key :
  Str.lower key <> Str.lower gone ->
  Starlette.get (Starlette.delitem h gone) key = Starlette.get h key.
Proof.
  intros Hne. unfold Starlette.delitem.
  induction h as [| [k v] h IH]; [reflexivity |].
  cbn [List.filter fst Starlette.get].
  destruct (String.eqb k (Str.lower gone)) eqn:Hgone; cbn [negb].
  - apply String.eqb_eq in Hgone. subst k. rewrite IH.
    destruct (String.eqb (Str.lower gone) (Str.lower key)) eqn:Hkey; [| reflexivity].
    apply String.eqb_eq in Hkey. congruence.
  - cbn [Starlette.get]. now rewrite IH.
Qed.

Lemma request_headers_get (h : Starlette.Headers) key :
  Str.lower key <> "centian-url" ->
  Starlette.get (request_headers h) key = Starlette.get h key.
Proof.
  intros Hne. unfold request_headers.
  destruct (Starlette.contains h "centian-url"); [| reflexivity].
  now apply starlette_get_delitem.
Qed.

(** The dict sent upstream: the three fixed entries, with the session id
    of the request when it has one that is not empty. *)
Lemma proxy_headers_cases (rh : Starlette.Headers) :
  proxy_headers rh =
  match walrus (Starlette.get rh "mcp-session-id") with
  | Some sess_id => <["mcp-session-id" := sess_id]> fixed_headers
  | None => fixed_headers
  end.
Proof.
  unfold proxy_headers.
  rewrite (starlette_get_same_name rh "MCP-Session-Id" "mcp-session-id") by reflexivity.
  destruct (walrus _); [| reflexivity].
  now rewrite insert_insert_eq.
Qed.

Lemma before_post_call request call :
  before request = inr call ->
  call_headers call = proxy_headers (request_headers (request_headers_of request))
  /\ call_url call = request_url (request_headers_of request)
  /\ json_loads (body request) = inr (call_json call).
Proof.
  unfold before_post, loads.
  destruct (json_loads (body request)) as [msg | v]; simpl; [discriminate |].
  destruct v; simpl; try discriminate.
  now intros [= <-].
Qed.

Lemma handler_calls request call :
  In call (fst (handler request)) -> before request = inr call.
Proof.
  unfold proxy_mcp_request.
  destruct (before request) as [e | c]; simpl; [tauto |].
  now intros [-> | []].
Qed.

Lemma fixed_headers_dom :
  dom fixed_headers = ({["Content-Type"; "Accept"; "User-Agent"]} : gset string).
Proof. unfold fixed_headers. rewrite !dom_insert_L, dom_empty_L. set_solver. Qed.

(** C7.  Every call the handler makes carries exactly the synthesized
    headers: [Content-Type], [Accept] and [User-Agent] with their fixed
    values and, at most, [mcp-session-id] besides; so no name that spells
    the target override [centian-url], and no other name, is among them. *)
Theorem outbound_headers_allow_list request :
  Forall (fun call =>
    (dom (call_headers call) = {["Content-Type"; "Accept"; "User-Agent"]}
     \/ dom (call_headers call) =
        {["Content-Type"; "Accept"; "User-Agent"; "mcp-session-id"]})
    /\ call_headers call !! "Content-Type" = Some "application/json"
    /\ call_headers call !! "Accept" = Some "application/json, text/event-stream"
    /\ call_headers call !! "User-Agent" = Some USER_AGENT
    /\ (forall name, Str.lower name = "centian-url" -> call_headers call !! name = None))
    (fst (handler request)).
Proof.
  apply List.Forall_forall. intros call Hcall.
  apply handler_calls, before_post_call in Hcall. destruct Hcall as (-> & _ & _).
  rewrite proxy_headers_cases.
  assert (Hdom :
    dom (match walrus (Starlette.get (request_headers (request_headers_of request))
                         "mcp-session-id") with
         | Some sess_id => <["mcp-session-id" := sess_id]> fixed_headers
         | None => fixed_headers
         end)
    ⊆ ({["Content-Type"; "Accept"; "User-Agent"; "mcp-session-id"]} : gset string)).
  { destruct (walrus _); [rewrite dom_insert_L |]; rewrite fixed_headers_dom;
      intros x; rewrite !elem_of_union, !elem_of_singleton; tauto. }
  split; [| split; [| split; [| split]]].
  - destruct (walrus _); [right; rewrite dom_insert_L | left];
      rewrite fixed_headers_dom; set_solver.
  - destruct (walrus _); [rewrite lookup_insert_ne by done |]; reflexivity.
  - destruct (walrus _); [rewrite lookup_insert_ne by done |]; reflexivity.
  - destruct (walrus _); [rewrite lookup_insert_ne by done |]; reflexivity.
  - intros name Hname. apply not_elem_of_dom. intros Hin.
    apply Hdom in Hin.
    rewrite !elem_of_union, !elem_of_singleton in Hin.
    destruct Hin as [[[-> | ->] | ->] | ->]; discriminate Hname.
Qed.

(** C9 (amended).  In every call the handler makes: when the first
    header of the request whose name spells [mcp-session-id] in any letter
    case has a value that is not empty, the call carries that value under
    the key [mcp-session-id]; when that first header has the empty value,
    whatever the later ones hold, or when the request has no such header,
    the call has no entry under that key; and no other spelling of the
    name is ever a key of the call's headers. *)
Theorem session_id_forwarded request call :
  In call (fst (handler request)) ->
  (forall pre name sid others,
     wire_headers request = pre ++ (name, sid) :: others ->
     Str.lower name = "mcp-session-id" ->
     Forall (fun kv => Str.lower (fst kv) <> "mcp-session-id") pre ->
     (sid <> "" -> call_headers call !! "mcp-session-id" = Some sid)
     /\ (sid = "" -> call_headers call !! "mcp-session-id" = None))
  /\ (Forall (fun kv => Str.lower (fst kv) <> "mcp-session-id") (wire_headers request) ->
      call_headers call !! "mcp-session-id" = None)
  /\ (forall name, Str.lower name = "mcp-session-id" -> name <> "mcp-session-id" ->
      call_headers call !! name = None).
Proof.
  intros Hcall.
  apply handler_calls, before_post_call in Hcall. destruct Hcall as (-> & _ & _).
  rewrite proxy_headers_cases, request_headers_get by discriminate.
  unfold request_headers_of.
  split; [| split].
  - intros pre name sid others -> Hname Hpre.
    rewrite starlette_get_first by assumption.
    unfold walrus. split.
    + intros Hsid. apply String.eqb_neq in Hsid. rewrite Hsid.
      now rewrite lookup_insert_eq.
    + intros ->. reflexivity.
  - intros Hnone. now rewrite starlette_get_absent.
  - intros name Hname Hne.
    destruct (walrus _); [rewrite lookup_insert_ne by congruence |];
      apply not_elem_of_dom; rewrite fixed_headers_dom;
      rewrite !elem_of_union, !elem_of_singleton;
      intros [[-> | ->] | ->]; discriminate Hname.
Qed.

(** *** The handler as a whole *)



(** X2.  A call carries the decoded inbound body as it is, and goes to the
    value of the first header whose name spells [centian-url] in any
    letter case, or to the default endpoint when the request has none. *)
Theorem call_forwards_body_and_target request call :
  In call (fst (handler request)) ->
  json_loads (body request) = inr (call_json call)
  /\ (forall pre name url others,
        wire_headers request = pre ++ (name, url) :: others ->
        Str.lower name = "centian-url" ->
        Forall (fun kv => Str.lower (fst kv) <> "centian-url") pre ->
        call_url call = url)
  /\ (Forall (fun kv => Str.lower (fst kv) <> "centian-url") (wire_headers request) ->
      call_url call = CONTEXT7_BASE_URL).
Proof.
  intros Hcall.
  apply handler_calls, before_post_call in Hcall.
  destruct Hcall as (_ & -> & Hbody).
  split; [exact Hbody |]. unfold request_url, request_headers_of. split.
  - intros pre name url others -> Hname Hpre.
    now rewrite starlette_get_first.
  - intros Hnone. now rewrite starlette_get_absent.
Qed.

(** X3.  A body that is JSON and not a mapping (a list, a string, a
    number) stops the handler before any upstream call: it raises
    [HTTPException] with status 500, the detail naming the missing [get]
    of the object's type. *)
Theorem non_mapping_body_is_internal_error request v :
  json_loads (body request) = inr v ->
  (forall d, v <> VDict d) ->
  handler request =
  ([], Raised 500 ("Internal server error: '" +:+ type_name v
                   +:+ "' object has no attribute 'get'")).
Proof.
  intros Hbody Hv.
  assert (Hpre : before request =
                 inl (Exception ("'" +:+ type_name v +:+ "' object has no attribute 'get'"))).
  { unfold before_post, loads. rewrite Hbody. simpl.
    destruct v; try reflexivity. now destruct (Hv d). }
  now rewrite (handler_no_call _ _ Hpre).
Qed.



(** X5.  A 2xx reply that is no event stream and whose [Content-Type]
    is not exactly [application/json] (another type, or none at all) comes
    back with the upstream status and the empty mapping as payload,
    whatever its body holds. *)
Theorem other_content_type_gives_empty_payload request call response :
  before request = inr call ->
  post call = inr response ->
  Httpx.is_success response = true ->
  Str.contains "text/event-stream" (content_type response) = false ->
  Httpx.get (Httpx.headers response) "Content-Type" <> Some "application/json" ->
  handler request =
  ([call], Returned {| content := VDict [];
                       status := Httpx.status_code response;
                       resp_headers := ∅ |}).
Proof.
  intros Hpre Hpost Hok Hplain Hct.
  rewrite (handler_reply _ _ _ Hpre Hpost), (after_post_success _ _ Hok).
  rewrite (normalized_plain _ _ Hplain).
  assert (Hdata : response_data json_loads response = VDict []).
  { unfold response_data.
    destruct (Httpx.get (Httpx.headers response) "Content-Type") as [ct |]; [| reflexivity].
    destruct (String.eqb ct "application/json") eqn:Heq; [| reflexivity].
    apply String.eqb_eq in Heq. congruence. }
  now rewrite Hdata.
Qed.

(** X6.  Provided that [eval] of the lines tried has no effect: when the
    first data line that decodes gives an object that is false in Python
    (an empty mapping or list, zero, the empty string, [None], [False]),
    the handler answers as if nothing had decoded, with status 500 and the
    raw body text, and the lines after it are not tried. *)
Theorem falsy_stream_payload_is_parse_failure request call response pre line rest v :
  before request = inr call ->
  post call = inr response ->
  Httpx.is_success response = true ->
  Str.contains "text/event-stream" (content_type response) = true ->
  lines strip (Httpx.text response) = pre ++ line :: rest ->
  Forall (skips (frame0 request response)) pre ->
  Str.startswith "data: " line = true ->
  decodes (frame0 request response) (Str.drop 6 line) v ->
  (length pre < loop_bound)%nat ->
  truthy v = false ->
  handler request = ([call], Returned (parse_failure (Httpx.text response))).
Proof.
  intros Hpre Hpost Hok Hsse Hlines Hskip Hdata Hv Hbound Hfalse.
  rewrite (handler_streamed _ _ _ Hpre Hpost Hok Hsse).
  destruct (json_data_first_hit py_eval json_loads (frame0 request response)
              pre line rest v loop_bound false) as [b Hscan]; try assumption.
  now rewrite (streamed_of_scan request response _ _ Hscan), Hfalse.
Qed.

(** X7.  Provided that [eval] of the lines tried has no effect: when every
    line of the event stream is passed over (it has no data marker, or its
    remainder decodes neither by [eval] nor by [json.loads]), the handler
    returns status 500 with the raw body text and raises nothing. *)
Theorem undecodable_stream_is_parse_failure request call response :
  before request = inr call ->
  post call = inr response ->
  Httpx.is_success response = true ->
  Str.contains "text/event-stream" (content_type response) = true ->
  Forall (skips (frame0 request response)) (lines strip (Httpx.text response)) ->
  (length (lines strip (Httpx.text response)) < loop_bound)%nat ->
  handler request = ([call], Returned (parse_failure (Httpx.text response))).
Proof.
  intros Hpre Hpost Hok Hsse Hskip Hbound.
  rewrite (handler_streamed _ _ _ Hpre Hpost Hok Hsse).
  destruct (json_data_all_skipped py_eval json_loads (frame0 request response)
              loop_bound false) as [b Hscan]; try assumption.
  now rewrite (streamed_of_scan request response _ _ Hscan).
Qed.

(** X8.  Provided that [eval] of the lines tried has no effect: on the
    streaming path a reply whose session-id header (its name in any letter
    case) has the non-empty value [sid] comes back with the decoded
    payload, the upstream status, and [mcp-session-id: sid] as the only
    header. *)
Theorem streaming_reply_forwards_session_id
    request call response pre line rest v name sid :
  before request = inr call ->
  post call = inr response ->
  Httpx.is_success response = true ->
  Str.contains "text/event-stream" (content_type response) = true ->
  lines strip (Httpx.text response) = pre ++ line :: rest ->
  Forall (skips (frame0 request response)) pre ->
  Str.startswith "data: " line = true ->
  decodes (frame0 request response) (Str.drop 6 line) v ->
  (length pre < loop_bound)%nat ->
  truthy v = true ->
  serialisable v = true ->
  Str.lower name = "mcp-session-id" ->
  Httpx.get (Httpx.headers response) name = Some sid ->
  sid <> "" ->
  handler request =
  ([call], Returned {| content := v;
                       status := Httpx.status_code response;
                       resp_headers := {["mcp-session-id" := sid]} |}).
Proof.
  intros Hpre Hpost Hok Hsse Hlines Hskip Hdata Hv Hbound Htrue Hser Hname Hget Hsid.
  rewrite (streaming_reply_payload _ _ _ _ _ _ _
             Hpre Hpost Hok Hsse Hlines Hskip Hdata Hv Hbound Htrue Hser).
  do 3 f_equal. unfold response_headers.
  rewrite (httpx_get_same_name _ "mcp-session-id" name) by now rewrite Hname.
  rewrite (httpx_get_same_name _ "Mcp-Session-Id" name) by now rewrite Hname.
  rewrite Hget. unfold walrus. apply String.eqb_neq in Hsid. rewrite Hsid.
  now rewrite insert_insert_eq.
Qed.



(** X10.  A reply whose status is not 2xx is never passed on: whatever
    its content type and headers, the handler raises [HTTPException] with
    status 500 and the forwarding-error detail, provided that, when the
    status is 400, the body is JSON (line 89 decodes it for the log). *)
Theorem non_2xx_reply_is_forwarding_error request call response :
  before request = inr call ->
  post call = inr response ->
  Httpx.is_success response = false ->
  (Httpx.status_code response = 400 ->
   exists v, json_loads (Httpx.text response) = inr v) ->
  handler request =
  ([call], Raised 500 ("Error forwarding request: " +:+ status_error response)).
Proof.
  intros Hpre Hpost Hko H400.
  destruct (Z.eq_dec (Httpx.status_code response) 400) as [Heq | Hne].
  - rewrite (bad_request_reply_outcome _ _ _ Hpre Hpost Heq).
    destruct (H400 Heq) as [v ->]. reflexivity.
  - now apply status_error_is_forwarding_error.
Qed.

(** X11.  When the call itself raises, the detail tells the two [except]
    clauses apart: an exception of the [httpx.HTTPError] family (timeout,
    connection error) gives the forwarding error, any other exception the
    internal server error; the status is 500 in both cases and the one
    call is all that was tried. *)
Theorem post_exception_classified request call e :
  before request = inr call ->
  post call = inl e ->
  handler request =
  ([call],
   Raised 500 match e with
              | HTTPError msg => "Error forwarding request: " +:+ msg
              | Exception msg => "Internal server error: " +:+ msg
              end).
Proof.
  intros Hpre Hpost.
  rewrite (handler_post_raises _ _ _ Hpre Hpost). now destruct e.
Qed.

Lemma starlette_contains_delitem (h : Starlette.Headers) key :
  Starlette.contains (Starlette.delitem h key) key = false.
Proof.
  unfold Starlette.contains, Starlette.delitem.
  induction h as [| [k v] h IH]; [reflexivity |].
  cbn [List.filter fst].
  destruct (String.eqb k (Str.lower key)) eqn:Hk; cbn [negb]; [exact IH |].
  cbn [existsb fst]. now rewrite Hk, IH.
Qed.

(** X12.  After lines 63 to 66 the copy of the inbound headers has no
    entry for the target override, however often and in whatever letter
    case the request carried it, and every other header reads as before. *)
Theorem override_header_removed (h : Starlette.Headers) :
  Starlette.contains (request_headers h) "centian-url" = false
  /\ Starlette.get (request_headers h) "centian-url" = None
  /\ (forall key, Str.lower key <> "centian-url" ->
      Starlette.get (request_headers h) key = Starlette.get h key).
Proof.
  assert (Hgone : Starlette.contains (request_headers h) "centian-url" = false).
  { unfold request_headers.
    destruct (Starlette.contains h "centian-url") eqn:Hc; [| exact Hc].
    apply starlette_contains_delitem. }
  split; [exact Hgone |]. split.
  - revert Hgone. generalize (request_headers h). intros l.
    unfold Starlette.contains.
    induction l as [| [k v] l IH]; [reflexivity |].
    cbn [existsb fst Starlette.get].
    destruct (String.eqb k (Str.lower "centian-url")); [discriminate |].
    exact IH.
  - intros key Hkey. now apply request_headers_get.
Qed.


End HandlerFacts.
(** ** The processor *)

Section Dicts.

Implicit Types d : list (string * value).

Lemma dict_get_set_eq d k v : dict_get (dict_set d k v) k = Some v.
Proof.
  induction d as [| [k' v'] d IH]; simpl.
  - now rewrite String.eqb_refl.
  - destruct (String.eqb k' k) eqn:Hk; simpl.
    + now rewrite String.eqb_refl.
    + now rewrite Hk.
Qed.

Lemma dict_get_set_ne d k k' v : k <> k' -> dict_get (dict_set d k v) k' = dict_get d k'.
Proof.
  intros Hne. induction d as [| [k0 v0] d IH]; simpl.
  - apply String.eqb_neq in Hne. now rewrite Hne.
  - destruct (String.eqb k0 k) eqn:Hk; simpl.
    + apply String.eqb_eq in Hk. subst k0.
      apply String.eqb_neq in Hne. now rewrite Hne.
    + now rewrite IH.
Qed.

Lemma dict_set_set d k v v' : dict_set (dict_set d k v) k v' = dict_set d k v'.
Proof.
  induction d as [| [k0 v0] d IH]; simpl.
  - now rewrite String.eqb_refl.
  - destruct (String.eqb k0 k) eqn:Hk; simpl.
    + now rewrite String.eqb_refl.
    + now rewrite Hk, IH.
Qed.

End Dicts.

Section Processor.

Import PayloadTransformer.

(** One step of the processor's code. *)
Ltac run := cbn [getitem contains setitem bind ret negb].

Lemma add_custom_header_dict pl ps :
  dict_get pl "params" = Some (VDict ps) ->
  (dict_get ps "arguments" = None
   \/ exists args, dict_get ps "arguments" = Some (VDict args)) ->
  add_custom_header (VDict pl) = inr (transformed pl ps).
Proof.
  intros Hparams Hargs. unfold add_custom_header, transformed, arguments_of.
  run. rewrite Hparams. run.
  destruct Hargs as [Hnone | [args Hsome]].
  - rewrite Hnone. run. rewrite dict_get_set_eq. run.
    now rewrite dict_set_set.
  - rewrite Hsome. run. rewrite Hsome. run. reflexivity.
Qed.

(** C10 (amended).  For an event whose payload is a mapping with a
    [params] entry that is a mapping, whose [arguments] entry, if it has
    one, is a mapping too: [process] returns status 200 and the payload
    with [x-processor = "payload_transformer"] added to
    [params.arguments] (the payload of the event itself, changed in
    place), and the metadata it returns lists no modification. *)
Theorem transformer_adds_header ev pl ps :
  dict_get ev "payload" = Some (VDict pl) ->
  dict_get pl "params" = Some (VDict ps) ->
  (dict_get ps "arguments" = None
   \/ exists args, dict_get ps "arguments" = Some (VDict args)) ->
  process (VDict ev) =
    inr (VDict [("status", VInt 200);
                ("payload", transformed pl ps);
                ("error", VNone);
                ("metadata", VDict [("processor_name", VStr "payload_transformer");
                                    ("modifications", VList [])])],
         VDict (dict_set ev "payload" (transformed pl ps)))
  /\ (do params <-- getitem (transformed pl ps) "params" ;;
      do arguments <-- getitem params "arguments" ;;
      getitem arguments "x-processor") = inr (VStr "payload_transformer").
Proof.
  intros Hpayload Hparams Hargs. split.
  - unfold process. run. rewrite Hpayload. run. rewrite Hparams. run.
    rewrite (add_custom_header_dict _ _ Hparams Hargs). reflexivity.
  - unfold transformed. run. rewrite dict_get_set_eq. run.
    rewrite dict_get_set_eq. run. now rewrite dict_get_set_eq.
Qed.

(** The entries that [params.arguments] had stay as they were. *)
Lemma transformed_keeps_arguments ps k :
  k <> "x-processor" ->
  dict_get (dict_set (arguments_of ps) "x-processor" (VStr "payload_transformer")) k
  = dict_get (arguments_of ps) k.
Proof. intros Hk. apply dict_get_set_ne. congruence. Qed.

End Processor.

(** * Concrete runs *)

(** A statement about the handler, at the reference [strip] and decoders
    and an upstream that gives [reply]. *)
Local Abbreviation at_sample fact reply :=
  (fact Str.strip_ascii Sample.eval Literal.loads (fun _ => reply)
        Sample.status_error Sample.dumps_error Sample.loop_bound
        Sample.module_globals).

(** ** Session id of the reply (C1) *)

(** C1.  The upstream answers 200 with [Content-Type: application/json],
    [Mcp-Session-Id: abc123] and the body [{"result": "ok"}]: the handler
    returns the payload with status 200 and no header at all, so the
    session id of the reply is lost on the plain path; the same reply as
    an event stream keeps it, under [mcp-session-id]. *)
Theorem json_reply_loses_session_id :
  Httpx.get (Httpx.headers Sample.json_reply) "mcp-session-id" = Some "abc123"
  /\ Sample.handler (inr Sample.json_reply) Sample.plain_request =
     ([Sample.plain_call],
      Returned {| content := VDict [("result", VStr "ok")];
                  status := 200;
                  resp_headers := ∅ |})
  /\ Sample.handler (inr Sample.sse_reply) Sample.plain_request =
     ([Sample.plain_call],
      Returned {| content := VDict [("result", VStr "ok")];
                  status := 200;
                  resp_headers := {["mcp-session-id" := "abc123"]} |}).
Proof. repeat split; vm_compute; reflexivity. Qed.

(** ** The data lines of an event stream (C2, C3) *)

(** C2, as stated, fails.  The stream has two data lines and the remainder
    of the first does not decode: under the specification's tie-break
    there is no payload, while the loop goes on to the second data line
    and the handler returns its payload with status 200. *)
Lemma second_data_line_is_used :
  frame_lines (Sample.frame Sample.plain_request Sample.sse_two_data_reply)
  = ["data: {oops"; "data: [1, 2]"]
  /\ first_data_line_only Sample.eval Literal.loads
       (Sample.frame Sample.plain_request Sample.sse_two_data_reply) = None
  /\ json_data Sample.eval Literal.loads Sample.loop_bound
       (Sample.frame Sample.plain_request Sample.sse_two_data_reply) 0
     = Some (with_json true (Sample.frame Sample.plain_request Sample.sse_two_data_reply),
             Some (VList [VInt 1; VInt 2]))
  /\ Sample.handler (inr Sample.sse_two_data_reply) Sample.plain_request =
     ([Sample.plain_call],
      Returned {| content := VList [VInt 1; VInt 2];
                  status := 200;
                  resp_headers := ∅ |}).
Proof. repeat split; vm_compute; reflexivity. Qed.

Lemma first_decodable_data_line_wins_witness :
  exists frame',
    json_data Sample.eval Literal.loads 3
      (Sample.frame Sample.plain_request More.sse_four_line_reply) 0
    = Some (frame', Some (VList [VInt 1; VInt 2]))
    /\ frame_response frame' = More.sse_four_line_reply
    /\ frame_lines frame'
       = ["event: message"; "data: {oops"; "data: [1, 2]"; "data: [3]"].
Proof.
  apply (first_decodable_data_line_wins Sample.eval Literal.loads
           (Sample.frame Sample.plain_request More.sse_four_line_reply)
           ["event: message"; "data: {oops"] "data: [1, 2]" ["data: [3]"]
           (VList [VInt 1; VInt 2]) 3).
  - reflexivity.
  - constructor; [left; reflexivity |].
    constructor; [| constructor].
    right. split; [intros b; reflexivity |]. eexists. reflexivity.
  - reflexivity.
  - left. intros b. reflexivity.
  - simpl. lia.
Defined.

Lemma sse_eval_before_json_witness :
  json_data Sample.eval (fun _ => inr VNone) 1
    (Sample.frame Sample.plain_request Sample.sse_python_reply) 1
  = Some (Sample.frame Sample.plain_request Sample.sse_python_reply,
          Some (VDict [("result", VStr "ok")]))
  /\ json_data Sample.eval Literal.loads 1
       (Sample.frame Sample.plain_request More.sse_json_only_reply) 1
     = Some (with_json true (Sample.frame Sample.plain_request More.sse_json_only_reply),
             Some (VDict [("done", VBool true)]))
  /\ Sample.handler (inr Sample.sse_python_reply) Sample.plain_request =
     ([Sample.plain_call],
      Returned {| content := VDict [("result", VStr "ok")];
                  status := 200;
                  resp_headers := ∅ |}).
Proof.
  split; [| split].
  - apply (proj1 (sse_eval_before_json Str.strip_ascii Sample.eval (fun _ => inr VNone)
                    (fun _ => inr Sample.sse_python_reply)
                    Sample.status_error Sample.dumps_error Sample.loop_bound
                    Sample.module_globals)
             0%nat _ 1%nat "data: {'result': 'ok'}");
      reflexivity.
  - apply (proj1 (proj2 (at_sample sse_eval_before_json (inr More.sse_json_only_reply)))
             0%nat _ 1%nat (Literal.j "data: {`done`: true}"));
      reflexivity.
  - apply (proj1 (proj2 (proj2 (at_sample sse_eval_before_json
                                   (inr Sample.sse_python_reply))))
             Sample.plain_request Sample.plain_call Sample.sse_python_reply
             ["event: message"] "data: {'result': 'ok'}" []
             (Sample.frame Sample.plain_request Sample.sse_python_reply)
             (VDict [("result", VStr "ok")]));
      try reflexivity.
    + repeat constructor.
    + simpl. unfold Sample.loop_bound. lia.
Defined.

(** ** Failures (C4, C5) *)

(** C4, as stated, fails.  The body holds [NaN] where JSON wants a value:
    it is no JSON document, and Python's [json.loads] reads it as a
    mapping with a float in it.  The handler then calls the upstream with
    that mapping; the caller gets what comes of the call, the reply of the
    upstream with status 200, or, from a client that refuses to send the
    float, status 500 with the client's message. *)
Lemma nan_body_reaches_upstream :
  Literal.loads (body More.nan_request) = inl "not a JSON document"
  /\ More.loads_python (body More.nan_request) = inr More.nan_json
  /\ More.handler_python (inr Sample.json_reply) More.nan_request =
     ([More.nan_call],
      Returned {| content := VDict [("result", VStr "ok")];
                  status := 200;
                  resp_headers := ∅ |})
  /\ More.handler_python
       (inl (Exception "Out of range float values are not JSON compliant"))
       More.nan_request =
     ([More.nan_call],
      Raised 500
        "Internal server error: Out of range float values are not JSON compliant").
Proof. repeat split; vm_compute; reflexivity. Qed.

Lemma malformed_body_fails_fast_witness :
  Sample.handler (inr Sample.json_reply) Sample.malformed_request =
    ([], Raised 500 "Internal server error: not a JSON document")
  /\ as_seen_by_caller
       (snd (Sample.handler (inr Sample.json_reply) Sample.malformed_request))
     = Some {| content :=
                 VDict [("detail", VStr "Internal server error: not a JSON document")];
               status := 500;
               resp_headers := ∅ |}.
Proof.
  apply (at_sample malformed_body_fails_fast (inr Sample.json_reply)
           Sample.malformed_request "not a JSON document").
  reflexivity.
Defined.

(** C5.  The upstream answers 400 with the body [Bad Request]: decoding
    the body for the log raises, the second [except] clause takes it, and
    the detail says internal server error, not forwarding error; a 404
    gets the forwarding error. *)
Theorem bad_request_reply_misclassified :
  Sample.handler (inr Sample.bad_request_reply) Sample.plain_request =
    ([Sample.plain_call], Raised 500 "Internal server error: not a JSON document")
  /\ Sample.handler (inr Sample.not_found_reply) Sample.plain_request =
    ([Sample.plain_call], Raised 500 "Error forwarding request: upstream status error").
Proof. split; vm_compute; reflexivity. Qed.

(** ** The plain reply (C6) *)

(** C6, as stated, fails.  A reply that declares
    [application/json; charset=utf-8] and holds [{"result": "ok"}] comes
    back as the empty mapping; and a reply whose body [json.loads] reads
    as a float that [json.dumps] refuses ends in status 500. *)
Lemma json_charset_reply_is_emptied :
  Literal.loads (Httpx.text Sample.json_charset_reply) = inr (VDict [("result", VStr "ok")])
  /\ Sample.handler (inr Sample.json_charset_reply) Sample.plain_request =
     ([Sample.plain_call],
      Returned {| content := VDict []; status := 200; resp_headers := ∅ |})
  /\ Sample.handler_nan (inr Sample.json_nan_reply) Sample.plain_request =
     ([Sample.plain_call],
      Raised 500 "Internal server error: Object is not JSON serializable").
Proof. repeat split; vm_compute; reflexivity. Qed.

Lemma json_reply_passthrough_witness :
  Sample.handler (inr Sample.json_reply) Sample.plain_request =
    ([Sample.plain_call],
     Returned {| content := VDict [("result", VStr "ok")];
                 status := 200;
                 resp_headers := ∅ |})
  /\ Sample.handler (inr Sample.json_broken_reply) Sample.plain_request =
    ([Sample.plain_call],
     Returned {| content := VDict []; status := 201; resp_headers := ∅ |}).
Proof.
  split.
  - apply (proj1 (at_sample json_reply_passthrough (inr Sample.json_reply)
             Sample.plain_request Sample.plain_call Sample.json_reply
             eq_refl eq_refl eq_refl eq_refl)); reflexivity.
  - apply (proj2 (at_sample json_reply_passthrough (inr Sample.json_broken_reply)
             Sample.plain_request Sample.plain_call Sample.json_broken_reply
             eq_refl eq_refl eq_refl eq_refl) "not a JSON document"); reflexivity.
Defined.

(** ** The headers sent upstream (C7, C9) *)

(** The request with a cookie, the target override and a session id: the
    one call goes to the override, with the fixed headers and the session
    id, and with neither the cookie nor the override. *)
Lemma session_request_call :
  fst (Sample.handler (inr Sample.json_reply) Sample.session_request)
  = [Sample.session_call]
  /\ call_headers Sample.session_call !! "Cookie" = None
  /\ call_headers Sample.session_call !! "Centian-Url" = None.
Proof. repeat split; vm_compute; reflexivity. Qed.

Lemma outbound_headers_allow_list_witness :
  call_headers Sample.session_call !! "Content-Type" = Some "application/json"
  /\ call_headers Sample.session_call !! "centian-url" = None.
Proof.
  pose proof (at_sample outbound_headers_allow_list (inr Sample.json_reply)
                Sample.session_request) as Hall.
  apply List.Forall_forall with (x := Sample.session_call) in Hall.
  - destruct Hall as (_ & Hct & _ & _ & Hurl). split; [exact Hct |].
    apply Hurl. reflexivity.
  - left. vm_compute. reflexivity.
Defined.

(** C9, as stated, fails.  The request carries the header
    [mcp-session-id] with an empty value: the call has no entry under that
    key. *)
Lemma empty_session_id_not_forwarded :
  wire_headers Sample.empty_session_request = [("mcp-session-id", "")]
  /\ fst (Sample.handler (inr Sample.json_reply) Sample.empty_session_request)
     = [Sample.plain_call]
  /\ call_headers Sample.plain_call !! "mcp-session-id" = None.
Proof. repeat split; vm_compute; reflexivity. Qed.

(** The first session-id header decides: when it is empty a later one
    with a value is not looked at. *)
Lemma first_session_header_decides :
  wire_headers More.two_session_request
  = [("mcp-session-id", ""); ("Mcp-Session-Id", "abc123")]
  /\ fst (Sample.handler (inr Sample.json_reply) More.two_session_request)
     = [Sample.plain_call].
Proof. split; vm_compute; reflexivity. Qed.

Lemma session_id_forwarded_witness :
  call_headers Sample.session_call !! "mcp-session-id" = Some "abc123"
  /\ call_headers Sample.plain_call !! "mcp-session-id" = None
  /\ call_headers Sample.session_call !! "Mcp-Session-Id" = None.
Proof.
  assert (Hs : In Sample.session_call
                 (fst (Sample.handler (inr Sample.json_reply) Sample.session_request))).
  { left. vm_compute. reflexivity. }
  assert (Hp : In Sample.plain_call
                 (fst (Sample.handler (inr Sample.json_reply) More.two_session_request))).
  { left. vm_compute. reflexivity. }
  apply (at_sample session_id_forwarded (inr Sample.json_reply)) in Hs.
  apply (at_sample session_id_forwarded (inr Sample.json_reply)) in Hp.
  destruct Hs as (Hfirst & _ & Hother). destruct Hp as (Hempty & _ & _).
  split; [| split].
  - apply (Hfirst [("Content-Type", "application/json"); ("Cookie", "secret=1");
                   ("Centian-Url", "https://example.org/mcp")]
                  "Mcp-Session-Id" "abc123" []); try reflexivity.
    + repeat constructor; discriminate.
    + discriminate.
  - apply (Hempty [] "mcp-session-id" "" [("Mcp-Session-Id", "abc123")]);
      try reflexivity.
    constructor.
  - apply Hother; [reflexivity | discriminate].
Defined.

(** ** The event stream without a data line (C8) *)

(** C8, as stated, fails.  No line of the body starts with the marker,
    the one line having white space before it: the handler strips the body
    before it splits it, finds the data line and returns its payload with
    status 200.  And when the event stream comes with status 404 the
    handler raises, the detail holds nothing of the body. *)
Lemma indented_data_line_is_used :
  Str.split Str.LF (Httpx.text More.sse_indented_data_reply) = ["  data: [1]"]
  /\ Str.startswith "data: " "  data: [1]" = false
  /\ Sample.handler (inr More.sse_indented_data_reply) Sample.plain_request =
     ([Sample.plain_call],
      Returned {| content := VList [VInt 1]; status := 200; resp_headers := ∅ |})
  /\ Str.split Str.LF (Httpx.text More.sse_not_found_reply)
     = ["event: ping"; ": keep-alive"]
  /\ Sample.handler (inr More.sse_not_found_reply) Sample.plain_request =
     ([Sample.plain_call], Raised 500 "Error forwarding request: upstream status error").
Proof. repeat split; vm_compute; reflexivity. Qed.

Lemma sse_without_data_line_witness :
  Sample.handler (inr Sample.sse_no_data_reply) Sample.plain_request =
  ([Sample.plain_call],
   Returned {| content := VDict [("error", VStr "Failed to parse streaming response");
                                 ("raw", VStr (Httpx.text Sample.sse_no_data_reply))];
               status := 500;
               resp_headers := ∅ |}).
Proof.
  apply (at_sample sse_without_data_line (inr Sample.sse_no_data_reply)
           Sample.plain_request Sample.plain_call Sample.sse_no_data_reply);
    try reflexivity.
  - repeat constructor.
  - vm_compute. lia.
Defined.

(** ** The processor (C10) *)

(** C10, as stated, fails.  The payload has a [params] key whose value is
    a list (positional parameters): [process] raises on the assignment, and
    [main] prints a result with status 500. *)
Lemma positional_params_raise :
  (do payload <-- PayloadTransformer.getitem Sample.positional_event "payload" ;;
   PayloadTransformer.contains payload "params") = inr true
  /\ PayloadTransformer.process Sample.positional_event
     = inl (Exception "list indices must be integers or slices, not str")
  /\ PayloadTransformer.main Literal.loads
       (Literal.j "{`type`: `request`, `payload`: {`method`: `subtract`, `params`: [42, 23]}}")
     = (VDict [("status", VInt 500);
               ("payload", VDict []);
               ("error", VStr "list indices must be integers or slices, not str");
               ("metadata", VDict [("processor_name", VStr "payload_transformer")])],
        0).
Proof. repeat split; vm_compute; reflexivity. Qed.

Lemma transformer_adds_header_witness :
  PayloadTransformer.process Sample.call_event =
  inr (VDict [("status", VInt 200);
              ("payload",
               VDict [("method", VStr "tools/call");
                      ("params",
                       VDict [("name", VStr "search");
                              ("arguments",
                               VDict [("x-processor", VStr "payload_transformer")])])]);
              ("error", VNone);
              ("metadata", VDict [("processor_name", VStr "payload_transformer");
                                  ("modifications", VList [])])],
       VDict [("type", VStr "request");
              ("payload",
               VDict [("method", VStr "tools/call");
                      ("params",
                       VDict [("name", VStr "search");
                              ("arguments",
                               VDict [("x-processor", VStr "payload_transformer")])])])]).
Proof.
  apply (proj1 (transformer_adds_header
                  [("type", VStr "request");
                   ("payload", VDict [("method", VStr "tools/call");
                                      ("params", VDict [("name", VStr "search")])])]
                  [("method", VStr "tools/call");
                   ("params", VDict [("name", VStr "search")])]
                  [("name", VStr "search")]
                  eq_refl eq_refl (or_introl eq_refl))).
Defined.

(** * Further properties *)

(** ** The health probe *)

(** X14.  [health_check] reports the proxy itself as healthy in every
    case, and the upstream as healthy exactly when the probe is answered
    with status 200, as unhealthy exactly when it is answered with any
    other status, and as unreachable exactly when the probe raises, the
    exception then being the [exc] of the report; when the probe is
    answered the [exc] of the report is [None]; and nothing of the reply
    but its status enters the report: two clients whose probes are
    answered with the same status give the same report, whatever the
    bodies and the headers of the two replies. *)
Theorem health_check_classifies_probe
    (get get' : string -> gmap string string -> M Httpx.Response) :
  proxy_status (health_check get) = "healthy"
  /\ proxy_target (health_check get) = CONTEXT7_BASE_URL
  /\ (context7_status (health_check get) = "healthy"
      <-> exists response, get CONTEXT7_BASE_URL probe_headers = inr response
                           /\ Httpx.status_code response = 200)
  /\ (context7_status (health_check get) = "unhealthy"
      <-> exists response, get CONTEXT7_BASE_URL probe_headers = inr response
                           /\ Httpx.status_code response <> 200)
  /\ (context7_status (health_check get) = "unreachable"
      <-> exists e, get CONTEXT7_BASE_URL probe_headers = inl e
                    /\ exc (health_check get) = Some e)
  /\ (forall response, get CONTEXT7_BASE_URL probe_headers = inr response ->
      exc (health_check get) = None)
  /\ (forall response response',
      get CONTEXT7_BASE_URL probe_headers = inr response ->
      get' CONTEXT7_BASE_URL probe_headers = inr response' ->
      Httpx.status_code response = Httpx.status_code response' ->
      health_check get = health_check get').
Proof.
  assert (Hcases :
    (exists e, get CONTEXT7_BASE_URL probe_headers = inl e
               /\ context7_status (health_check get) = "unreachable"
               /\ exc (health_check get) = Some e)
    \/ (exists response, get CONTEXT7_BASE_URL probe_headers = inr response
               /\ exc (health_check get) = None
               /\ ((Httpx.status_code response = 200
                    /\ context7_status (health_check get) = "healthy")
                   \/ (Httpx.status_code response <> 200
                       /\ context7_status (health_check get) = "unhealthy")))).
  { unfold health_check.
    destruct (get CONTEXT7_BASE_URL probe_headers) as [e | response]; simpl.
    - left. eauto.
    - right. exists response.
      destruct (Z.eqb_spec (Httpx.status_code response) 200); auto. }
  split; [| split].
  { unfold health_check. now destruct (get _ _). }
  { unfold health_check. now destruct (get _ _). }
  split; [| split; [| split; [| split]]].
  - split.
    + intros Hst.
      destruct Hcases as [(e & _ & Hs & _) | (r & Hr & _ & [[H200 _] | [_ Hs]])];
        try congruence; eauto.
    + intros (r & Hr & H200).
      destruct Hcases as [(e & He & _) | (r' & Hr' & _ & [[_ Hs] | [Hne _]])];
        congruence.
  - split.
    + intros Hst.
      destruct Hcases as [(e & _ & Hs & _) | (r & Hr & _ & [[_ Hs] | [Hne _]])];
        try congruence; eauto.
    + intros (r & Hr & Hne).
      destruct Hcases as [(e & He & _) | (r' & Hr' & _ & [[H200 _] | [_ Hs]])];
        congruence.
  - split.
    + intros Hst.
      destruct Hcases as [(e & He & _ & Hexc) | (r & _ & _ & [[_ Hs] | [_ Hs]])];
        try congruence; eauto.
    + intros (e & He & _).
      destruct Hcases as [(e' & _ & Hs & _) | (r & Hr & _)]; congruence.
  - intros r Hr.
    destruct Hcases as [(e & He & _) | (r' & _ & Hexc & _)]; congruence.
  - intros r r' Hr Hr' Hst. unfold health_check. now rewrite Hr, Hr', Hst.
Qed.

(** ** Strings *)

Section Strings.

Lemma lower_app a b : Str.lower (a +:+ b) = Str.lower a +:+ Str.lower b.
Proof. induction a as [| c a IH]; simpl; [reflexivity | now rewrite IH]. Qed.

Lemma startswith_app p s : Str.startswith p (p +:+ s) = true.
Proof.
  induction p as [| c p IH]; simpl; [reflexivity |].
  now rewrite Ascii.eqb_refl.
Qed.

Lemma contains_cons p c s :
  Str.contains p (String c s) =
  if Str.startswith p (String c s) then true else Str.contains p s.
Proof. reflexivity. Qed.

Lemma contains_app p a b : Str.contains p (a +:+ p +:+ b) = true.
Proof.
  induction a as [| c a IH].
  - change ("" +:+ p +:+ b) with (p +:+ b).
    destruct (p +:+ b) eqn:Hs.
    + unfold Str.contains. rewrite <- Hs. now rewrite startswith_app.
    + rewrite contains_cons, <- Hs. now rewrite startswith_app.
  - change (String c a +:+ p +:+ b) with (String c (a +:+ p +:+ b)).
    rewrite contains_cons, IH. now destruct (Str.startswith _ _).
Qed.

End Strings.

(** ** The processors *)

Section Processors.

Import PayloadTransformer.

(** X15.  [passthrough]: [main] prints a result with status 200 exactly
    when its input decodes to a mapping with a [payload] entry, and the
    payload it prints is then that entry, unchanged; in every other case
    (no JSON, no mapping, no [payload]) it prints status 500 with an empty
    payload; it exits with status 0 either way. *)
Theorem passthrough_main_contract (json_load : string -> string + value) stdin :
  snd (Passthrough.main json_load stdin) = 0
  /\ ((exists ev payload,
         json_load stdin = inr (VDict ev)
         /\ dict_get ev "payload" = Some payload
         /\ fst (Passthrough.main json_load stdin) = success_result "passthrough" payload)
      \/ ((forall ev, json_load stdin = inr (VDict ev) -> dict_get ev "payload" = None)
          /\ exists e, fst (Passthrough.main json_load stdin)
                       = error_result "passthrough" e)).
Proof.
  unfold Passthrough.main, main_of, Passthrough.process.
  destruct (json_load stdin) as [msg | event]; simpl.
  - split; [reflexivity |]. right. split; [discriminate | eauto].
  - destruct event; simpl;
      try (split; [reflexivity |]; right; split; [discriminate | eauto]).
    destruct (dict_get d "payload") as [payload |] eqn:Hp; simpl.
    + split; [reflexivity |]. left. eauto.
    + split; [reflexivity |]. right. split; [| eauto].
      now intros ev [= <-].
Qed.

(** X16.  [security_validator] blocks every method that contains the word
    [delete] in any mix of letter cases, anywhere in the name: the result
    has status 403 and an empty payload. *)
Theorem delete_blocked_in_any_letter_case ev pl pre word rest :
  dict_get ev "payload" = Some (VDict pl) ->
  dict_get pl "method" = Some (VStr (pre +:+ word +:+ rest)) ->
  Str.lower word = "delete" ->
  SecurityValidator.process (VDict ev) = inr SecurityValidator.blocked.
Proof.
  intros Hpayload Hmethod Hword.
  unfold SecurityValidator.process, SecurityValidator.method_lower, py_get.
  cbn [getitem bind]. rewrite Hpayload. cbn [bind ret]. rewrite Hmethod.
  cbn [from_option id bind ret].
  now rewrite !lower_app, Hword, contains_app.
Qed.

(** X17.  [security_validator] lets nothing through that names a delete:
    when it returns status 200, the payload is a mapping that it returns
    unchanged, and its method is absent or is a string in which no
    spelling of [delete] occurs. *)
Theorem validator_never_passes_delete event result :
  SecurityValidator.process event = inr result ->
  getitem result "status" = inr (VInt 200) ->
  exists ev pl,
    event = VDict ev
    /\ dict_get ev "payload" = Some (VDict pl)
    /\ result = success_result "security_validator" (VDict pl)
    /\ (dict_get pl "method" = None
        \/ exists m, dict_get pl "method" = Some (VStr m)
                     /\ forall pre word rest,
                          m = pre +:+ word +:+ rest -> Str.lower word <> "delete").
Proof.
  unfold SecurityValidator.process, SecurityValidator.method_lower, py_get.
  destruct event as [| | | | | ev |]; try discriminate. cbn [getitem bind].
  destruct (dict_get ev "payload") as [payload |] eqn:Hpayload; [| discriminate].
  cbn [bind ret].
  destruct payload as [| | | | | pl |]; try discriminate. cbn [bind ret].
  destruct (dict_get pl "method") as [method |] eqn:Hmethod; cbn [from_option id bind ret].
  - destruct method as [| | | m | | |]; try discriminate. cbn [bind ret].
    destruct (Str.contains "delete" (Str.lower m)) eqn:Hdel.
    + intros [= <-]. discriminate.
    + intros [= <-] _. exists ev, pl.
      split; [reflexivity |]. split; [assumption |]. split; [reflexivity |].
      right. exists m. split; [assumption |].
      intros pre word rest -> Hword.
      rewrite !lower_app, Hword, contains_app in Hdel. discriminate.
  - change (Str.contains "delete" (Str.lower "")) with false. cbn iota.
    intros [= <-] _. exists ev, pl.
    split; [reflexivity |]. split; [assumption |]. split; [reflexivity |]. now left.
Qed.

(** X18.  [request_logger] only ever appends to its log: a call that
    returns leaves the old entries in place and adds one entry, which holds
    the clock's timestamp, the [type] of the event and the [method] of the
    payload ([unknown] when it has none), and the payload comes back
    unchanged; a call that raises (no [payload], no [type], a payload that
    is no mapping, or the file system refusing) leaves the log as it
    was. *)
Theorem logger_appends_or_leaves now io_error log event :
  match snd (RequestLogger.process now io_error log event) with
  | inr result =>
      exists ev pl type,
        event = VDict ev
        /\ dict_get ev "payload" = Some (VDict pl)
        /\ dict_get ev "type" = Some type
        /\ result = success_result "request_logger" (VDict pl)
        /\ fst (RequestLogger.process now io_error log event)
           = log ++ [VDict [("timestamp", VStr now);
                            ("type", type);
                            ("method", from_option id (VStr "unknown")
                                         (dict_get pl "method"))]]
  | inl _ => fst (RequestLogger.process now io_error log event) = log
  end.
Proof.
  unfold RequestLogger.process, RequestLogger.log_entry, py_get.
  destruct event as [| | | | | ev |]; try reflexivity. cbn [getitem bind].
  destruct (dict_get ev "payload") as [payload |] eqn:Hpayload; [| reflexivity].
  cbn [bind ret].
  destruct (dict_get ev "type") as [type |] eqn:Htype; [| reflexivity].
  cbn [bind ret].
  destruct payload as [| | | | | pl |]; try reflexivity. cbn [bind ret].
  destruct io_error as [msg |]; [reflexivity |]. cbn [fst snd].
  exists ev, pl, type. repeat split; assumption.
Qed.

Ltac step := cbn [getitem contains setitem bind ret raise negb].

Lemma dict_set_present (d : list (string * value)) k v :
  dict_get d k = Some v -> dict_set d k v = d.
Proof.
  induction d as [| [k0 v0] d IH]; simpl; [discriminate |].
  destruct (String.eqb k0 k) eqn:Hk.
  - apply String.eqb_eq in Hk. intros [= ->]. now subst.
  - intros H. now rewrite IH.
Qed.

Lemma process_with_params ev pl ps :
  dict_get ev "payload" = Some (VDict pl) ->
  dict_get pl "params" = Some (VDict ps) ->
  (dict_get ps "arguments" = None
   \/ exists args, dict_get ps "arguments" = Some (VDict args)) ->
  process (VDict ev) =
  inr (success_result "payload_transformer" (transformed pl ps),
       VDict (dict_set ev "payload" (transformed pl ps))).
Proof.
  intros Hpayload Hparams Hargs.
  unfold process. step. rewrite Hpayload. step. rewrite Hparams. step.
  now rewrite (add_custom_header_dict _ _ Hparams Hargs).
Qed.

(** X19.  [payload_transformer] leaves alone what has no [params]: for a
    payload in which [params] does not occur (a mapping without that key,
    but also a list or a string without it) it returns status 200 with the
    payload as it was, and the event is unchanged. *)
Theorem transformer_without_params_is_identity ev payload :
  dict_get ev "payload" = Some payload ->
  contains payload "params" = inr false ->
  process (VDict ev) = inr (success_result "payload_transformer" payload, VDict ev).
Proof.
  intros Hpayload Hno. unfold process. step. rewrite Hpayload. step.
  rewrite Hno. step. now rewrite (dict_set_present _ _ _ Hpayload).
Qed.

Lemma arguments_of_set ps args :
  arguments_of (dict_set ps "arguments" (VDict args)) = args.
Proof. unfold arguments_of. now rewrite dict_get_set_eq. Qed.

Lemma transformed_again pl ps :
  exists pl' ps',
    transformed pl ps = VDict pl'
    /\ dict_get pl' "params" = Some (VDict ps')
    /\ (exists args, dict_get ps' "arguments" = Some (VDict args))
    /\ transformed pl' ps' = transformed pl ps.
Proof.
  set (args' := dict_set (arguments_of ps) "x-processor" (VStr "payload_transformer")).
  set (ps' := dict_set ps "arguments" (VDict args')).
  exists (dict_set pl "params" (VDict ps')), ps'.
  split; [reflexivity |].
  split; [apply dict_get_set_eq |].
  split; [exists args'; apply dict_get_set_eq |].
  unfold transformed. fold args'. fold ps'.
  assert (Hargs : arguments_of ps' = args') by apply arguments_of_set.
  assert (Hxp : dict_set args' "x-processor" (VStr "payload_transformer") = args')
    by apply dict_set_set.
  assert (Hps : dict_set ps' "arguments" (VDict args') = ps') by apply dict_set_set.
  now rewrite Hargs, Hxp, Hps, dict_set_set.
Qed.

(** X20.  [payload_transformer] is idempotent: run on the event that a
    first run has left, it returns the same result and leaves the event as
    it found it, so a chain that holds the processor twice adds the entry
    once. *)
Theorem transformer_idempotent ev pl ps result event' :
  dict_get ev "payload" = Some (VDict pl) ->
  dict_get pl "params" = Some (VDict ps) ->
  (dict_get ps "arguments" = None
   \/ exists args, dict_get ps "arguments" = Some (VDict args)) ->
  process (VDict ev) = inr (result, event') ->
  process event' = inr (result, event').
Proof.
  intros Hpayload Hparams Hargs.
  rewrite (process_with_params _ _ _ Hpayload Hparams Hargs).
  intros [= <- <-].
  destruct (transformed_again pl ps) as (pl' & ps' & Heq & Hparams' & Hargs' & Hsame).
  rewrite (process_with_params _ pl' ps'); try assumption.
  - now rewrite Hsame, dict_set_set.
  - rewrite Heq. apply dict_get_set_eq.
  - now right.
Qed.

(** X21.  [payload_transformer] touches one entry only: in the payload it
    returns, every key besides [params] has the value it had, and so has
    every key of [params] besides [arguments] and every key of
    [arguments] besides [x-processor]. *)
Theorem transformer_keeps_other_entries ev pl ps :
  dict_get ev "payload" = Some (VDict pl) ->
  dict_get pl "params" = Some (VDict ps) ->
  (dict_get ps "arguments" = None
   \/ exists args, dict_get ps "arguments" = Some (VDict args)) ->
  exists pl' ps' args' event',
    process (VDict ev) =
      inr (success_result "payload_transformer" (VDict pl'), event')
    /\ dict_get pl' "params" = Some (VDict ps')
    /\ dict_get ps' "arguments" = Some (VDict args')
    /\ (forall k, k <> "params" -> dict_get pl' k = dict_get pl k)
    /\ (forall k, k <> "arguments" -> dict_get ps' k = dict_get ps k)
    /\ (forall k, k <> "x-processor" ->
          dict_get args' k = dict_get (arguments_of ps) k).
Proof.
  intros Hpayload Hparams Hargs.
  rewrite (process_with_params _ _ _ Hpayload Hparams Hargs).
  unfold transformed. eexists _, _, _, _. split; [reflexivity |].
  split; [apply dict_get_set_eq |]. split; [apply dict_get_set_eq |].
  repeat split; intros k Hk; apply dict_get_set_ne; congruence.
Qed.

(** X22.  [payload_transformer] returns in two cases only: the event is a
    mapping whose [payload] has no [params] in it, and comes back as it
    was; or the payload is a mapping whose [params] is a mapping with no
    [arguments] or with an [arguments] that is a mapping, and comes back
    with the entry added.  For every other event [process] raises (and
    [main] prints status 500). *)
Theorem transformer_returns_only_for event result event' :
  process event = inr (result, event') ->
  exists ev payload,
    event = VDict ev
    /\ dict_get ev "payload" = Some payload
    /\ ((contains payload "params" = inr false
         /\ result = success_result "payload_transformer" payload
         /\ event' = event)
        \/ exists pl ps,
             payload = VDict pl
             /\ dict_get pl "params" = Some (VDict ps)
             /\ (dict_get ps "arguments" = None
                 \/ exists args, dict_get ps "arguments" = Some (VDict args))
             /\ result = success_result "payload_transformer" (transformed pl ps)
             /\ event' = VDict (dict_set ev "payload" (transformed pl ps))).
Proof.
  destruct event as [| | | | | ev |]; try discriminate.
  unfold process. step.
  destruct (dict_get ev "payload") as [payload |] eqn:Hpayload; [| discriminate].
  step. intros Hrun. exists ev, payload. split; [reflexivity |]. split; [exact Hpayload |].
  revert Hrun.
  destruct (contains payload "params") as [e | [|]] eqn:Hin; [discriminate | |].
  - intros Hrun. right. revert Hrun. step.
    destruct payload as [| | | s | l | pl |]; try discriminate Hin.
    + unfold add_custom_header. step. discriminate.
    + unfold add_custom_header. step. discriminate.
    + destruct (dict_get pl "params") as [params |] eqn:Hparams.
      2:{ revert Hin. step. rewrite Hparams. discriminate. }
      destruct params as [| | | s | l | ps |];
        try (unfold add_custom_header; step; rewrite Hparams; step; discriminate).
      * unfold add_custom_header. step. rewrite Hparams. step.
        destruct (Str.contains "arguments" s); step; discriminate.
      * unfold add_custom_header. step. rewrite Hparams. step.
        destruct (existsb _ l); step; discriminate.
      * destruct (dict_get ps "arguments") as [arguments |] eqn:Hargs.
        -- destruct arguments as [| | | | | args |];
             try (unfold add_custom_header; step; rewrite Hparams; step;
                  rewrite Hargs; step; rewrite Hargs; step; discriminate).
           rewrite (add_custom_header_dict pl ps Hparams) by eauto. step.
           intros [= <- <-]. exists pl, ps. repeat split; eauto.
        -- rewrite (add_custom_header_dict pl ps Hparams) by eauto. step.
           intros [= <- <-]. exists pl, ps. repeat split; eauto.
  - intros Hrun. left. revert Hrun. step. intros [= <- <-].
    repeat split. now rewrite (dict_set_present _ _ _ Hpayload).
Qed.

End Processors.

(** ** Runs for the further properties *)

Lemma call_forwards_body_and_target_witness :
  Literal.loads Sample.tools_list_body = inr (call_json Sample.session_call)
  /\ call_url Sample.session_call = "https://example.org/mcp"
  /\ call_url Sample.plain_call = CONTEXT7_BASE_URL.
Proof.
  assert (Hs : In Sample.session_call
                 (fst (Sample.handler (inr Sample.json_reply) Sample.session_request))).
  { left. vm_compute. reflexivity. }
  assert (Hp : In Sample.plain_call
                 (fst (Sample.handler (inr Sample.json_reply) Sample.plain_request))).
  { left. vm_compute. reflexivity. }
  apply (at_sample call_forwards_body_and_target (inr Sample.json_reply)) in Hs.
  apply (at_sample call_forwards_body_and_target (inr Sample.json_reply)) in Hp.
  destruct Hs as (Hbody & Hurl & _). destruct Hp as (_ & _ & Hdefault).
  split; [exact Hbody |]. split.
  - apply (Hurl [("Content-Type", "application/json"); ("Cookie", "secret=1")]
                "Centian-Url" "https://example.org/mcp"
                [("Mcp-Session-Id", "abc123")]); try reflexivity.
    repeat constructor; discriminate.
  - apply Hdefault. repeat constructor; discriminate.
Defined.

Lemma non_mapping_body_is_internal_error_witness :
  Sample.handler (inr Sample.json_reply) More.list_request =
  ([], Raised 500 "Internal server error: 'list' object has no attribute 'get'").
Proof.
  apply (at_sample non_mapping_body_is_internal_error (inr Sample.json_reply)
           More.list_request (VList [VInt 1; VInt 2])).
  - reflexivity.
  - discriminate.
Defined.


(** The hypothesis on [eval] is needed: an expression that sets the status
    of [response] and answers a list that is true gets its status to the
    caller. *)
Lemma eval_can_change_status :
  Httpx.status_code More.sse_setattr_reply = 200
  /\ More.handler_with More.eval_setattr (inr More.sse_setattr_reply) Sample.plain_request =
     ([Sample.plain_call],
      Returned {| content := VList [VNone]; status := 418; resp_headers := ∅ |}).
Proof. split; vm_compute; reflexivity. Qed.

Lemma other_content_type_gives_empty_payload_witness :
  Sample.handler (inr More.text_reply) Sample.plain_request =
  ([Sample.plain_call],
   Returned {| content := VDict []; status := 202; resp_headers := ∅ |}).
Proof.
  apply (at_sample other_content_type_gives_empty_payload (inr More.text_reply)
           Sample.plain_request Sample.plain_call More.text_reply);
    try reflexivity.
  discriminate.
Defined.

Lemma falsy_stream_payload_is_parse_failure_witness :
  Sample.handler (inr More.sse_empty_payload_reply) Sample.plain_request =
  ([Sample.plain_call],
   Returned (parse_failure (Httpx.text More.sse_empty_payload_reply))).
Proof.
  apply (at_sample falsy_stream_payload_is_parse_failure
           (inr More.sse_empty_payload_reply)
           Sample.plain_request Sample.plain_call More.sse_empty_payload_reply
           ["event: message"] "data: {}" [] (VDict []));
    try reflexivity.
  - repeat constructor.
  - left. intros b. reflexivity.
  - simpl. unfold Sample.loop_bound. lia.
Defined.

Lemma undecodable_stream_is_parse_failure_witness :
  Sample.handler (inr More.sse_undecodable_reply) Sample.plain_request =
  ([Sample.plain_call],
   Returned (parse_failure (Httpx.text More.sse_undecodable_reply))).
Proof.
  apply (at_sample undecodable_stream_is_parse_failure
           (inr More.sse_undecodable_reply)
           Sample.plain_request Sample.plain_call More.sse_undecodable_reply);
    try reflexivity.
  - constructor; [left; reflexivity |].
    constructor; [| constructor].
    right. split; [intros b; reflexivity |]. eexists. reflexivity.
  - vm_compute. lia.
Defined.

Lemma streaming_reply_forwards_session_id_witness :
  Sample.handler (inr More.sse_session_reply) Sample.plain_request =
  ([Sample.plain_call],
   Returned {| content := VList [VInt 1; VInt 2];
               status := 200;
               resp_headers := {["mcp-session-id" := "s-42"]} |}).
Proof.
  apply (at_sample streaming_reply_forwards_session_id (inr More.sse_session_reply)
           Sample.plain_request Sample.plain_call More.sse_session_reply
           [] "data: [1, 2]" [] (VList [VInt 1; VInt 2]) "MCP-Session-Id" "s-42");
    try reflexivity.
  - constructor.
  - left. intros b. reflexivity.
  - simpl. unfold Sample.loop_bound. lia.
  - discriminate.
Defined.


Lemma non_2xx_reply_is_forwarding_error_witness :
  Sample.handler (inr Sample.not_found_reply) Sample.plain_request =
  ([Sample.plain_call], Raised 500 "Error forwarding request: upstream status error").
Proof.
  apply (at_sample non_2xx_reply_is_forwarding_error (inr Sample.not_found_reply)
           Sample.plain_request Sample.plain_call Sample.not_found_reply);
    try reflexivity.
  discriminate.
Defined.

Lemma post_exception_classified_witness :
  Sample.handler (inl (HTTPError "timed out")) Sample.plain_request =
    ([Sample.plain_call], Raised 500 "Error forwarding request: timed out")
  /\ Sample.handler (inl (Exception "Invalid URL")) Sample.plain_request =
    ([Sample.plain_call], Raised 500 "Internal server error: Invalid URL").
Proof.
  split.
  - apply (at_sample post_exception_classified (inl (HTTPError "timed out"))
             Sample.plain_request Sample.plain_call (HTTPError "timed out"));
      reflexivity.
  - apply (at_sample post_exception_classified (inl (Exception "Invalid URL"))
             Sample.plain_request Sample.plain_call (Exception "Invalid URL"));
      reflexivity.
Defined.


(** On an event stream the outcome can depend on the rest of the request:
    [eval] runs in the handler's frame, and an expression of the stream
    that reads the local [request_headers] gets the cookie of the one
    request and nothing from the other. *)
Lemma eval_can_read_request :
  fst (More.handler_with More.eval_cookie (inr More.sse_cookie_reply)
         Sample.session_request)
  = fst (More.handler_with More.eval_cookie (inr More.sse_cookie_reply)
           More.session_request')
  /\ snd (More.handler_with More.eval_cookie (inr More.sse_cookie_reply)
            Sample.session_request)
     = Returned {| content := VStr "secret=1"; status := 200; resp_headers := ∅ |}
  /\ snd (More.handler_with More.eval_cookie (inr More.sse_cookie_reply)
            More.session_request')
     = Returned (parse_failure (Httpx.text More.sse_cookie_reply)).
Proof. repeat split; vm_compute; reflexivity. Qed.

Lemma delete_blocked_in_any_letter_case_witness :
  SecurityValidator.process More.delete_event = inr SecurityValidator.blocked.
Proof.
  apply (delete_blocked_in_any_letter_case
           [("type", VStr "request");
            ("payload", VDict [("method", VStr "resources/Delete_file");
                               ("params", VDict [])])]
           [("method", VStr "resources/Delete_file"); ("params", VDict [])]
           "resources/" "Delete" "_file");
    reflexivity.
Defined.

Lemma validator_never_passes_delete_witness :
  exists ev pl,
    More.list_event = VDict ev
    /\ dict_get ev "payload" = Some (VDict pl)
    /\ success_result "security_validator"
         (VDict [("method", VStr "tools/list")])
       = success_result "security_validator" (VDict pl)
    /\ (dict_get pl "method" = None
        \/ exists m, dict_get pl "method" = Some (VStr m)
                     /\ forall pre word rest,
                          m = pre +:+ word +:+ rest -> Str.lower word <> "delete").
Proof.
  apply (validator_never_passes_delete More.list_event
           (success_result "security_validator"
              (VDict [("method", VStr "tools/list")])));
    reflexivity.
Defined.

Lemma transformer_without_params_is_identity_witness :
  PayloadTransformer.process More.list_event =
  inr (success_result "payload_transformer" (VDict [("method", VStr "tools/list")]),
       More.list_event).
Proof.
  apply (transformer_without_params_is_identity
           [("type", VStr "request");
            ("payload", VDict [("method", VStr "tools/list")])]
           (VDict [("method", VStr "tools/list")]));
    reflexivity.
Defined.

(** The event that the processor leaves for [Sample.call_event]. *)
Lemma transformer_idempotent_witness :
  exists result event',
    PayloadTransformer.process Sample.call_event = inr (result, event')
    /\ PayloadTransformer.process event' = inr (result, event')
    /\ event' <> Sample.call_event.
Proof.
  eexists _, _. split; [vm_compute; reflexivity |]. split; [| discriminate].
  apply (transformer_idempotent
           [("type", VStr "request");
            ("payload", VDict [("method", VStr "tools/call");
                               ("params", VDict [("name", VStr "search")])])]
           [("method", VStr "tools/call");
            ("params", VDict [("name", VStr "search")])]
           [("name", VStr "search")]);
    try reflexivity.
  left. reflexivity.
Defined.

Lemma transformer_keeps_other_entries_witness :
  exists pl' ps' args' event',
    PayloadTransformer.process Sample.call_event =
      inr (success_result "payload_transformer" (VDict pl'), event')
    /\ dict_get pl' "params" = Some (VDict ps')
    /\ dict_get ps' "arguments" = Some (VDict args')
    /\ dict_get pl' "method" = Some (VStr "tools/call")
    /\ dict_get ps' "name" = Some (VStr "search").
Proof.
  destruct (transformer_keeps_other_entries
              [("type", VStr "request");
               ("payload", VDict [("method", VStr "tools/call");
                                  ("params", VDict [("name", VStr "search")])])]
              [("method", VStr "tools/call");
               ("params", VDict [("name", VStr "search")])]
              [("name", VStr "search")]
              eq_refl eq_refl (or_introl eq_refl))
    as (pl' & ps' & args' & event' & Hrun & Hps & Hargs & Hpl & Hparams & _).
  exists pl', ps', args', event'.
  split; [exact Hrun |]. split; [exact Hps |]. split; [exact Hargs |]. split.
  - rewrite Hpl by discriminate. reflexivity.
  - rewrite Hparams by discriminate. reflexivity.
Defined.

Lemma transformer_returns_only_for_witness :
  exists ev payload,
    Sample.call_event = VDict ev
    /\ dict_get ev "payload" = Some payload
    /\ exists pl ps,
         payload = VDict pl
         /\ dict_get pl "params" = Some (VDict ps)
         /\ dict_get ps "arguments" = None.
Proof.
  destruct (transformer_returns_only_for Sample.call_event
              (success_result "payload_transformer"
                 (PayloadTransformer.transformed
                    [("method", VStr "tools/call");
                     ("params", VDict [("name", VStr "search")])]
                    [("name", VStr "search")]))
              (VDict [("type", VStr "request");
                      ("payload",
                       PayloadTransformer.transformed
                         [("method", VStr "tools/call");
                          ("params", VDict [("name", VStr "search")])]
                         [("name", VStr "search")])])
              eq_refl)
    as (ev & payload & Hev & Hpayload & Hcase).
  exists ev, payload. split; [exact Hev |]. split; [exact Hpayload |].
  injection Hev as <-. injection Hpayload as <-.
  eexists _, _. split; [reflexivity |]. split; reflexivity.
Defined.
